(** * The evaluation harness: [testing_utils.py], [eval.py], [utils.py]

    A shallow embedding of the sandbox executor ([run_test]), of the
    per-candidate reduction ([evaluate_single]) and of the aggregation done
    by [evaluate], with the properties the specification states about them.

    The harness runs untrusted Python.  What the candidate does is not the
    harness's business, so the meaning of Python's dynamic operations
    ([exec], attribute lookup, calls, [==], [str], ...) is a parameter of
    the development, the class [Python] below; what the harness does with
    their results is translated statement by statement.

    Conventions.
    - Executions terminate: every operation is a total function of the
      interpreter state.  A candidate that never returns has no run here.
    - An exception is the data the harness reads from it (class name, the
      formatted traceback) and whether its class derives from [Exception];
      [except Exception] only catches those that do ([SystemExit],
      [KeyboardInterrupt] and [GeneratorExit] do not).  [str(e)] is the
      message for the classes that the builtin [__str__] renders, and an
      operation of the interpreter, which may raise, for the others.
    - A str is the UTF-8 encoding of its characters.
    - A state change made before an exception is raised is kept, as in
      Python: the monad returns the state on both outcomes.
    - The exception of the alarm ([Timeout], raised by the signal handler)
      arrives while candidate code runs: it is one of the exceptions an
      operation of [Python] may raise, and is not delivered between two
      statements of the harness.  When it arrives is a matter of wall-clock
      time, which this development does not model.
    - Names are those of the source; the variable [mod] is written [modl],
      [mod] being a notation of arithmetic. *)

From Stdlib Require Import String Ascii List ZArith Bool Arith Lia.
From Stdlib Require Import DecimalString Floats.PrimFloat.
Import ListNotations.
Local Open Scope list_scope.
Local Open Scope string_scope.

Set Implicit Arguments.

(** ** Decoded JSON documents *)

#[local] Unset Elimination Schemes.

Inductive json : Type :=
| JNull
| JBool (b : bool)
| JInt (z : Z)
| JFloat (f : float)
| JStr (s : string)
| JList (l : list json)
| JDict (d : list (string * json)).

#[local] Set Elimination Schemes.

(** Python truthiness of a decoded document ([if fn_name:], [if code]). *)
Definition truthy (j : json) : bool :=
  match j with
  | JNull => false
  | JBool b => b
  | JInt z => negb (z =? 0)%Z
  | JFloat f => negb (PrimFloat.eqb f PrimFloat.zero)
  | JStr s => negb (s =? "")
  | JList l => match l with [] => false | _ => true end
  | JDict d => match d with [] => false | _ => true end
  end.

Definition isinstance_list (j : json) : bool :=
  match j with JList _ => true | _ => false end.

Definition isinstance_str (j : json) : bool :=
  match j with JStr _ => true | _ => false end.

Definition isinstance_dict (j : json) : bool :=
  match j with JDict _ => true | _ => false end.

Fixpoint assoc (k : string) (d : list (string * json)) : option json :=
  match d with
  | [] => None
  | (k', v) :: d' => if k =? k' then Some v else assoc k d'
  end.

Definition has_key (k : string) (d : list (string * json)) : bool :=
  match assoc k d with Some _ => true | None => false end.

(** ** Exceptions *)

Record exn : Type := Exn {
  exn_name : string;          (* type(e).__name__ *)
  exn_str : option string;    (* Some s: str(e) returns s, as the __str__ of
                                 the builtin classes makes it from plain
                                 arguments; None: rendering e runs code of
                                 the candidate (a __str__ of its own, or an
                                 argument that has one) *)
  exn_format_exc : string;    (* traceback.format_exc() while e is handled *)
  exn_is_Exception : bool     (* isinstance(e, Exception) *)
}.

(** The message of an exception that the builtin [__str__] renders. *)
Definition message (e : exn) : string :=
  match exn_str e with
  | Some s => s
  | None => ""
  end.

Definition nl : string := String (ascii_of_nat 10) "".

(** ** A state monad that keeps the state when an exception is raised *)

Inductive outcome (A : Type) : Type :=
| Ret (a : A)
| Raise (e : exn).

Arguments Ret {A} a.
Arguments Raise {A} e.

Definition M (S A : Type) : Type := S -> outcome A * S.

Definition ret {S A} (a : A) : M S A := fun s => (Ret a, s).

Definition raise {S A} (e : exn) : M S A := fun s => (Raise e, s).

Definition bind {S A B} (m : M S A) (k : A -> M S B) : M S B :=
  fun s =>
    match m s with
    | (Ret a, s') => k a s'
    | (Raise e, s') => (Raise e, s')
    end.

Declare Scope py_scope.
Delimit Scope py_scope with py.
Notation "x <- m ;; k" := (bind m (fun x => k))
  (at level 61, m at next level, right associativity) : py_scope.
Notation "m ;; k" := (bind m (fun _ => k))
  (at level 61, right associativity) : py_scope.
Local Open Scope py_scope.

Definition get {S} : M S S := fun s => (Ret s, s).

Definition modify {S} (f : S -> S) : M S unit := fun s => (Ret tt, f s).

(** [try: body / except Exception as e: handler e]. *)
Definition try_except {S A} (body : M S A) (handler : exn -> M S A) : M S A :=
  fun s =>
    match body s with
    | (Ret a, s') => (Ret a, s')
    | (Raise e, s') =>
        if exn_is_Exception e then handler e s' else (Raise e, s')
    end.

(** [try: body / finally: cleanup].  An exception of the cleanup replaces
    the outcome of the body. *)
Definition try_finally {S A} (body : M S A) (cleanup : M S unit) : M S A :=
  fun s =>
    match body s with
    | (r, s') =>
        match cleanup s' with
        | (Ret _, s'') => (r, s'')
        | (Raise e, s'') => (Raise e, s'')
        end
    end.

(** [for x in xs: body x], leaving the loop at the first escaping exception. *)
Fixpoint for_each {S X} (xs : list X) (body : X -> M S unit) : M S unit :=
  match xs with
  | [] => ret tt
  | x :: xs' => body x ;; for_each xs' body
  end.



(** A pure operation that may raise. *)
Definition pure {S A} (r : outcome A) : M S A := fun s => (r, s).

(** Running a computation on a component of a larger state. *)
Definition zoom {S T A} (proj : T -> S) (upd : S -> T -> T) (m : M S A) : M T A :=
  fun t => match m (proj t) with (r, s') => (r, upd s' t) end.

Fixpoint enumerate_from {X} (i : nat) (xs : list X) : list (nat * X) :=
  match xs with
  | [] => []
  | x :: xs' => (i, x) :: enumerate_from (S i) xs'
  end.

Definition enumerate {X} (xs : list X) : list (nat * X) := enumerate_from 0 xs.

(** ** Text

    A Python str is held as the bytes of its UTF-8 encoding, which is what
    a string literal of this file is.  A character is then a byte that is
    no continuation byte together with the continuation bytes that follow
    it; [code_point] decodes it. *)

Definition type_name (j : json) : string :=
  match j with
  | JNull => "NoneType"
  | JBool _ => "bool"
  | JInt _ => "int"
  | JFloat _ => "float"
  | JStr _ => "str"
  | JList _ => "list"
  | JDict _ => "dict"
  end.

Definition string_of_nat (n : nat) : string :=
  DecimalString.NilZero.string_of_uint (Nat.to_uint n).

(** The bytes [10xxxxxx]. *)
Definition is_continuation (b : ascii) : bool :=
  let n := nat_of_ascii b in ((128 <=? n) && (n <? 192))%nat.

(** The characters of a str, each as a str of length one. *)
Fixpoint characters (s : string) : list string :=
  match s with
  | EmptyString => []
  | String b rest =>
      match rest with
      | EmptyString => [String b EmptyString]
      | String b' _ =>
          if is_continuation b'
          then match characters rest with
               | c :: cs => String b c :: cs
               | [] => [String b EmptyString]
               end
          else String b EmptyString :: characters rest
      end
  end.

(** [''.join(l)]. *)
Fixpoint join (l : list string) : string :=
  match l with
  | [] => EmptyString
  | c :: l' => c ++ join l'
  end.

(** [ord(c)] of a character, from the one to four bytes that encode it;
    [None] for bytes that encode no character. *)
Definition code_point (c : string) : option N :=
  let byte (b : ascii) : N := N_of_ascii b in
  let low (b : ascii) : N := (N_of_ascii b - 128)%N in
  match c with
  | String b0 EmptyString =>
      if (byte b0 <? 128)%N then Some (byte b0) else None
  | String b0 (String b1 EmptyString) =>
      if ((194 <=? byte b0) && (byte b0 <? 224))%N
      then Some ((byte b0 - 192) * 64 + low b1)%N
      else None
  | String b0 (String b1 (String b2 EmptyString)) =>
      let n := ((byte b0 - 224) * 4096 + low b1 * 64 + low b2)%N in
      if ((224 <=? byte b0) && (byte b0 <? 240) && (2048 <=? n))%N
      then Some n
      else None
  | String b0 (String b1 (String b2 (String b3 EmptyString))) =>
      let n := ((byte b0 - 240) * 262144 + low b1 * 4096 + low b2 * 64 + low b3)%N in
      if ((240 <=? byte b0) && (byte b0 <? 248) && (65536 <=? n))%N
      then Some n
      else None
  | _ => None
  end.

(** The code points for which [str.isspace] holds (Unicode 14, CPython
    3.11): U+0009 to U+000D, U+001C to U+0020, U+0085, U+00A0, U+1680,
    U+2000 to U+200A, U+2028, U+2029, U+202F, U+205F and U+3000. *)
Definition is_whitespace (n : N) : bool :=
  (((0x9 <=? n) && (n <=? 0xD)) || ((0x1C <=? n) && (n <=? 0x20))
   || (n =? 0x85) || (n =? 0xA0) || (n =? 0x1680)
   || ((0x2000 <=? n) && (n <=? 0x200A))
   || (n =? 0x2028) || (n =? 0x2029) || (n =? 0x202F) || (n =? 0x205F)
   || (n =? 0x3000))%N.

(** [c.isspace()] of a character. *)
Definition isspace (c : string) : bool :=
  match code_point c with
  | Some n => is_whitespace n
  | None => false
  end.

Fixpoint drop_while {A} (p : A -> bool) (l : list A) : list A :=
  match l with
  | [] => []
  | x :: l' => if p x then drop_while p l' else l
  end.

Fixpoint take_while {A} (p : A -> bool) (l : list A) : list A :=
  match l with
  | [] => []
  | x :: l' => if p x then x :: take_while p l' else []
  end.

Definition lstrip (cs : list string) : list string := drop_while isspace cs.

Definition rstrip (cs : list string) : list string :=
  rev (drop_while isspace (rev cs)).

(** [s.strip()]. *)
Definition strip (s : string) : string := join (rstrip (lstrip (characters s))).

(** [t] is [s] without the whitespace characters it starts and ends with. *)
Definition trimmed (s t : string) : Prop :=
  exists before middle after : list string,
    characters s = (before ++ middle ++ after)%list
    /\ join (characters s) = s
    /\ t = join middle
    /\ forallb isspace before = true
    /\ forallb isspace after = true
    /\ (forall c, hd_error middle = Some c -> isspace c = false)
    /\ (forall c, hd_error (rev middle) = Some c -> isspace c = false).

(** ** The interpreter state and the objects the harness holds *)

(** What the harness reads and writes of the process: the stream bound to
    [sys.stdout], the seconds left on the pending alarm (0: none), and the
    rest, which only candidate code looks at. *)
Record world (H V : Type) : Type := World {
  sys_stdout : V;
  alarm : nat;
  heap : H
}.

Definition set_stdout {H V} (v : V) (w : world H V) : world H V :=
  {| sys_stdout := v; alarm := alarm w; heap := heap w |}.

Definition set_alarm {H V} (n : nat) (w : world H V) : world H V :=
  {| sys_stdout := sys_stdout w; alarm := n; heap := heap w |}.

Definition set_heap {H V} (h : H) (w : world H V) : world H V :=
  {| sys_stdout := sys_stdout w; alarm := alarm w; heap := h |}.

(** Creating an object: it changes the heap only and does not raise. *)
Definition alloc {H V} (new : H -> V * H) : M (world H V) V :=
  fun w => (Ret (fst (new (heap w))), set_heap (snd (new (heap w))) w).

(** An element of the verdict list: [True] or [False], an integer (the
    sentinel), or any other object a comparison returned. *)
Inductive pyobj (V : Type) : Type :=
| PyBool (b : bool)
| PyInt (z : Z)
| PyObj (v : V).

Arguments PyBool {V} b.
Arguments PyInt {V} z.
Arguments PyObj {V} v.

(** [r is True]. *)
Definition is_True {V} (r : pyobj V) : bool :=
  match r with PyBool true => true | _ => false end.

(** An error descriptor, the dict [{"name": ..., "value": ...}]. *)
Record edesc : Type := Edesc { name : string; value : string }.

(** ** The language: what Python does with candidate code *)

Class Python (H V : Type) : Type := {
  (* importlib.util.module_from_spec(spec_from_loader(name, loader=None)):
     a new, empty module object *)
  module_from_spec : string -> H -> V * H;
  (* exec(code, mod.__dict__) *)
  exec : json -> V -> M (world H V) unit;
  (* getattr(mod, fn_name) *)
  getattr : V -> json -> M (world H V) V;
  (* fn(a1, ..., an) *)
  call : V -> list json -> M (world H V) V;
  (* got == expected *)
  py_eq : V -> json -> M (world H V) (pyobj V);
  (* the truth value of an object that is neither a bool nor an int *)
  truth : V -> M (world H V) bool;
  (* str(got) *)
  py_str : V -> M (world H V) string;
  (* str(expected), on a decoded document *)
  str_json : json -> string;
  (* StringIO(): a new, empty buffer *)
  StringIO : H -> V * H;
  (* stream.getvalue() *)
  getvalue : V -> M (world H V) string;
  (* ast.parse(code) returns, rather than raising SyntaxError, ValueError,
     TypeError, ...: all of them derive from Exception *)
  ast_parse : json -> bool;
  (* json.loads(text): the decoded document, or JSONDecodeError *)
  json_loads : string -> outcome json;
  (* json.dumps(document) *)
  json_dumps : json -> string;
  (* str(e), for an exception whose rendering runs code of the candidate *)
  str_exn : exn -> M (world H V) string;
  (* traceback.format_exc() while an exception of a builtin class, raised
     by the statement of the harness on that line of that file, is handled:
     the text for the class name and the message; its frames name the file
     as it is installed *)
  format_exc_builtin : string -> nat -> string -> string -> string;
  (* the exceptions of json.loads are of classes of the library, which the
     builtin __str__ renders *)
  json_loads_str : forall text e, json_loads text = Raise e -> exn_str e <> None
}.

(** ** Operations of the harness on decoded documents *)

(** An exception of a builtin class, as an operation on a decoded document
    (indexing, iteration, [.get]) makes it.  It has no traceback before a
    statement raises it. *)
Definition builtin_error (name msg : string) : exn :=
  {| exn_name := name;
     exn_str := Some msg;
     exn_format_exc := "";
     exn_is_Exception := true |}.

Section Raising.

Context {H V : Type} {py : Python H V}.

(** The exception [e] once the statement on line [line] of [file] has
    raised it: its traceback is the one of that line. *)
Definition raised (file : string) (line : nat) (e : exn) : exn :=
  {| exn_name := exn_name e;
     exn_str := exn_str e;
     exn_format_exc := format_exc_builtin file line (exn_name e) (message e);
     exn_is_Exception := exn_is_Exception e |}.

(** The outcome of an operation on a decoded document in the statement on
    line [line] of [file]. *)
Definition at_line {A} (file : string) (line : nat) (r : outcome A) : outcome A :=
  match r with
  | Ret a => Ret a
  | Raise e => Raise (raised file line e)
  end.

End Raising.

(** [d.get(key, default)]. *)
Definition py_get (d : json) (key : string) (default : json) : outcome json :=
  match d with
  | JDict kv => Ret (match assoc key kv with Some v => v | None => default end)
  | _ =>
      Raise (builtin_error "AttributeError"
               ("'" ++ type_name d ++ "' object has no attribute 'get'"))
  end.

(** The items [for ... in enumerate(ins)] goes through. *)
Definition py_iter (j : json) : outcome (list json) :=
  match j with
  | JList l => Ret l
  | JStr s => Ret (map JStr (characters s))
  | JDict kv => Ret (map (fun p => JStr (fst p)) kv)
  | _ =>
      Raise (builtin_error "TypeError"
               ("'" ++ type_name j ++ "' object is not iterable"))
  end.

(** [outs[i]] for an index [i >= 0]. *)
Definition py_index (j : json) (i : nat) : outcome json :=
  match j with
  | JList l =>
      match nth_error l i with
      | Some v => Ret v
      | None => Raise (builtin_error "IndexError" "list index out of range")
      end
  | JStr s =>
      match nth_error (map JStr (characters s)) i with
      | Some v => Ret v
      | None => Raise (builtin_error "IndexError" "string index out of range")
      end
  | JDict _ => Raise (builtin_error "KeyError" (string_of_nat i))
  | _ =>
      Raise (builtin_error "TypeError"
               ("'" ++ type_name j ++ "' object is not subscriptable"))
  end.


(** ** testing_utils.py *)

Definition TIMEOUT : nat := 10.

(** [class Timeout(Exception): pass], as the handler raises it; [trace] is
    the formatted traceback of the place it interrupted. *)
Definition Timeout (trace : string) : exn :=
  {| exn_name := "Timeout";
     exn_str := Some "";
     exn_format_exc := trace;
     exn_is_Exception := true |}.

(** What importing the module does with [platform.system()]: the value of
    [SIGNAL_AVAILABLE] and the lines it prints. *)
Definition import_testing_utils (platform_system : string) : bool * list string :=
  if negb (platform_system =? "Windows")
  then (true, [])
  else (false, ["Warning: Timeout not available on Windows"]).

Section Harness.

Context {H V : Type} {py : Python H V}.

(** [platform.system()] of the process the harness runs in. *)
Variable platform_system : string.

Definition SIGNAL_AVAILABLE : bool := fst (import_testing_utils platform_system).

#[local] Abbreviation World := (world H V).

(** [signal.alarm(n)]. *)
Definition signal_alarm (n : nat) : M World unit := modify (set_alarm n).

(** Lines 21-25. *)
Definition create_module_from_string (name : string) (code : json) : M World V :=
  modl <- alloc (module_from_spec name) ;;
  exec code modl ;;
  ret modl.

(** Lines 27-36: [sys.stdout] is rebound to a new buffer, the source runs,
    the text is read from what [sys.stdout] is then bound to, and the
    [finally] rebinds the former stream. *)
Definition _run_script_and_capture_output (code_str : json) (modl : V) : M World string :=
  old_stdout <- (w <- get ;; ret (sys_stdout w)) ;;
  buffer <- alloc StringIO ;;
  modify (set_stdout buffer) ;;
  output <- try_finally
              (exec code_str modl ;;
               stream <- (w <- get ;; ret (sys_stdout w)) ;;
               getvalue stream)
              (modify (set_stdout old_stdout)) ;;
  ret output.

(** The local variables of [run_test] that the loop updates, with the
    interpreter state. *)
Record frame : Type := MkFrame {
  the_world : World;
  res : list (pyobj V);
  err : list (option edesc)
}.

Definition with_world (w : World) (f : frame) : frame :=
  {| the_world := w; res := res f; err := err f |}.

Definition lift {A} (m : M World A) : M frame A :=
  zoom the_world with_world m.

Definition res_append (r : pyobj V) : M frame unit :=
  modify (fun f => {| the_world := the_world f; res := res f ++ [r]; err := err f |}).

Definition err_append (e : option edesc) : M frame unit :=
  modify (fun f => {| the_world := the_world f; res := res f; err := err f ++ [e] |}).

(** The truth value of [ok] in [None if ok else ...]. *)
Definition truth_of (ok : pyobj V) : M World bool :=
  match ok with
  | PyBool b => ret b
  | PyInt z => ret (negb (z =? 0)%Z)
  | PyObj v => truth v
  end.

(** The interpreter state after [if SIGNAL_AVAILABLE: signal.alarm(n)]. *)
Definition alarm_if_available (n : nat) (w : World) : World :=
  if SIGNAL_AVAILABLE then set_alarm n w else w.

(** Lines 50-51. *)
Definition arm : M frame unit :=
  if SIGNAL_AVAILABLE then lift (signal_alarm TIMEOUT) else ret tt.

(** Lines 64-65, and lines 67-68 in the handler. *)
Definition disarm : M frame unit :=
  if SIGNAL_AVAILABLE then lift (signal_alarm 0) else ret tt.

(** The positional arguments of the call of line 54: the items of [inp]
    when it is a list (the starred call), [inp] alone otherwise. *)
Definition arguments (inp : json) : list json :=
  match inp with
  | JList args => args
  | _ => [inp]
  end.

(** Lines 52-57: the case in function mode. *)
Definition function_case (fn_name outs : json) (modl : V) (i : nat) (inp : json)
  : M frame unit :=
  fn <- lift (getattr modl fn_name) ;;
  got <- lift (call fn (arguments inp)) ;;
  expected <- pure (at_line "testing_utils.py" 55 (py_index outs i)) ;;
  ok <- lift (py_eq got expected) ;;
  res_append ok ;;
  e <- lift (b <- truth_of ok ;;
             if b : bool then ret None
             else s <- py_str got ;;
                  ret (Some {| name := "WrongOutput"; value := s |})) ;;
  err_append e.

(** Lines 58-63: the case in script mode. *)
Definition script_case (outs test : json) (modl : V) (i : nat) : M frame unit :=
  output <- lift (_run_script_and_capture_output test modl) ;;
  expected <- pure (at_line "testing_utils.py" 61 (py_index outs i)) ;;
  let ok := strip output =? strip (str_json expected) in
  res_append (PyBool ok) ;;
  err_append (if ok then None
              else Some {| name := "WrongStdout"; value := output |}).

(** Lines 49-65: what the [try] of one iteration runs. *)
Definition case_body (fn_name outs test : json) (modl : V) (i : nat) (inp : json)
  : M frame unit :=
  arm ;;
  (if truthy fn_name
   then function_case fn_name outs modl i inp
   else script_case outs test modl i) ;;
  disarm.

(** Lines 66-70: the handler of one iteration. *)
Definition case_handler (e : exn) : M frame unit :=
  disarm ;;
  res_append (PyBool false) ;;
  err_append (Some {| name := exn_name e; value := exn_format_exc e |}).

(** The frame the handler leaves. *)
Definition handled (e : exn) (f : frame) : frame :=
  {| the_world := alarm_if_available 0 (the_world f);
     res := res f ++ [PyBool false];
     err := err f ++ [Some {| name := exn_name e; value := exn_format_exc e |}] |}.

(** Lines 49-70: one iteration of the loop. *)
Definition run_case (fn_name outs test : json) (modl : V) (c : nat * json)
  : M frame unit :=
  try_except (case_body fn_name outs test modl (fst c) (snd c)) case_handler.

(** Entering and leaving the scope of the two lists. *)
Definition with_lists (m : M frame unit)
  : M World (list (pyobj V) * list (option edesc)) :=
  fun w =>
    match m {| the_world := w; res := []; err := [] |} with
    | (Ret _, f) => (Ret (res f, err f), the_world f)
    | (Raise e, f) => (Raise e, the_world f)
    end.

(** [str(e)]: the message, or what the code that renders [e] does. *)
Definition py_str_exn (e : exn) : M World string :=
  match exn_str e with
  | Some s => ret s
  | None => str_exn e
  end.

(** The load-failure sentinel of line 46, [s] being [str(e)]. *)
Definition sentinel (e : exn) (s : string) : list (pyobj V) * list (option edesc) :=
  ([PyInt (-2)], [Some {| name := exn_name e; value := s |}]).

(** Lines 38-71.  [sample_io] is [sample["input_output"]]; the [return] of
    the handler of line 46 is the right injection, and an exception that
    [str(e)] raises there leaves [run_test]. *)
Definition run_test (sample_io : string) (test : json)
  : M World (list (pyobj V) * list (option edesc)) :=
  io <- pure (json_loads sample_io) ;;
  ins <- pure (at_line "testing_utils.py" 40 (py_get io "inputs" (JList []))) ;;
  outs <- pure (at_line "testing_utils.py" 40 (py_get io "outputs" (JList []))) ;;
  fn_name <- pure (at_line "testing_utils.py" 41 (py_get io "fn_name" JNull)) ;;
  loaded <- try_except
              (modl <- create_module_from_string "tmp" test ;; ret (inl modl))
              (fun e => s <- py_str_exn e ;; ret (inr (sentinel e s))) ;;
  match loaded with
  | inr early => ret early
  | inl modl =>
      cases <- pure (at_line "testing_utils.py" 48 (py_iter ins)) ;;
      with_lists (for_each (enumerate cases) (run_case fn_name outs test modl))
  end.

(** *** Conditions on a run *)






(** A verdict and the error beside it agree: [True] has no error, [False]
    has one. *)
Definition describes (v : pyobj V) (e : option edesc) : Prop :=
  (is_True v = true -> e = None) /\ (v = PyBool false -> e <> None).



(** ** eval.py *)

Definition check_syntax_valid (code : json) : bool :=
  if ast_parse code then true else false.

(** A record returned by [evaluate_single]. *)
Record result : Type := Result {
  task_id : json;
  passed : bool;
  syntax_valid : bool;
  error : list (option edesc);
  error_name : option string;
  num_tests : nat;
  num_passed : nat
}.

(** Lines 51-56: the name of the first error descriptor that is not [None]. *)
Fixpoint first_error_name (err : list (option edesc)) : option string :=
  match err with
  | [] => None
  | Some e :: _ => Some (name e)
  | None :: err' => first_error_name err'
  end.

(** Lines 49-66: the record made of what [run_test] returned. *)
Definition verdict_record (task_id : json) (syntax_valid : bool)
    (res : list (pyobj V)) (err : list (option edesc)) : result :=
  let ok := forallb is_True res in
  {| task_id := task_id;
     passed := ok;
     syntax_valid := syntax_valid;
     error := err;
     error_name := if negb ok then first_error_name err else None;
     num_tests := length res;
     num_passed := length (filter is_True res) |}.

(** Lines 39-47: the record made when [run_test] raised, [s] being
    [str(e)]. *)
Definition evaluation_error (task_id : json) (syntax_valid : bool) (s : string)
  : result :=
  {| task_id := task_id;
     passed := false;
     syntax_valid := syntax_valid;
     error := [Some {| name := "EvaluationError"; value := s |}];
     error_name := Some "EvaluationError";
     num_tests := 0;
     num_passed := 0 |}.

(** Lines 23-27: the source text taken from the generation. *)
Definition code_of (field : json) : json :=
  match field with
  | JList (first :: _) => first
  | JStr _ => field
  | _ => if truthy field then JStr (str_json field) else JStr ""
  end.

(** Lines 30-32. *)
Definition io_of (field : json) : string :=
  match field with
  | JStr s => s
  | _ => json_dumps field
  end.

(** What lines 18-32 take from a generation that is a dict. *)
Definition generation_task_id (kv : list (string * json)) : json :=
  match assoc "task_id" kv with
  | Some v => v
  | None => match assoc "id" kv with Some v => v | None => JStr "unknown" end
  end.

Definition generation_code (kv : list (string * json)) : json :=
  code_of match assoc "deal_response" kv with
          | Some v => v
          | None => match assoc "solutions" kv with Some v => v | None => JStr "" end
          end.

Definition generation_io (kv : list (string * json)) : string :=
  io_of match assoc "input_output" kv with Some v => v | None => JStr "{}" end.

(** Lines 17-66 of eval.py.  Both arguments of a [.get] are evaluated
    before the call, the default first when it is itself a [.get].  The
    handler evaluates [str(e)] while it builds the record: an exception
    raised there leaves [evaluate_single]. *)
Definition evaluate_single (g : json) : M World result :=
  id <- pure (at_line "eval.py" 20 (py_get g "id" (JStr "unknown"))) ;;
  task_id <- pure (at_line "eval.py" 20 (py_get g "task_id" id)) ;;
  solutions <- pure (at_line "eval.py" 23 (py_get g "solutions" (JStr ""))) ;;
  deal_response <- pure (at_line "eval.py" 23 (py_get g "deal_response" solutions)) ;;
  let code := code_of deal_response in
  input_output <- pure (at_line "eval.py" 30 (py_get g "input_output" (JStr "{}"))) ;;
  let io := io_of input_output in
  let syntax_valid := check_syntax_valid code in
  ran <- try_except
           (p <- run_test io code ;; ret (inl p))
           (fun e => s <- py_str_exn e ;; ret (inr s)) ;;
  match ran with
  | inr s => ret (evaluation_error task_id syntax_valid s)
  | inl (res, err) => ret (verdict_record task_id syntax_valid res err)
  end.

(** [errors[k] = errors.get(k, 0) + 1] on a dict, kept in insertion order. *)
Fixpoint dict_incr (k : string) (errors : list (string * nat)) : list (string * nat) :=
  match errors with
  | [] => [(k, 1)]
  | (k', n) :: rest =>
      if k =? k' then (k', n + 1) :: rest else (k', n) :: dict_incr k rest
  end.

(** Lines 97-100 of [evaluate]: the error histogram. *)
Definition error_breakdown (results : list result) : list (string * nat) :=
  fold_left
    (fun errors r =>
       match error_name r with
       | Some n => if negb (n =? "") then dict_incr n errors else errors
       | None => errors
       end)
    results [].

(** [if r["error_name"]:] holds. *)
Definition classified (r : result) : bool :=
  match error_name r with
  | Some n => negb (n =? "")
  | None => false
  end.

(** [sum(errors.values())]. *)
Definition sum_values (errors : list (string * nat)) : nat :=
  fold_right (fun kv acc => snd kv + acc) 0 errors.

(** [passed] and [total - passed] of [evaluate]. *)
Definition passed_problems (results : list result) : nat :=
  length (filter passed results).

Definition failed_problems (results : list result) : nat :=
  length results - passed_problems results.

(** [total_tests] and [total_tests_passed] of [evaluate]. *)
Definition total_test_cases (results : list result) : nat :=
  fold_right (fun r acc => num_tests r + acc) 0 results.

Definition passed_test_cases (results : list result) : nat :=
  fold_right (fun r acc => num_passed r + acc) 0 results.

(** Lines 72-75 of [evaluate]: the number of worker processes, from
    [cpu_count()] and the [workers] argument ([None] when not given). *)
Definition num_processes (cpu_count : Z) (workers : option Z) : Z :=
  let cpu_cap := Z.max 1 (cpu_count - 1) in
  let workers := match workers with
                 | None => Z.min 4 cpu_cap
                 | Some n => n
                 end in
  Z.max 1 (Z.min workers cpu_cap).

(** [errors.get(k)]. *)
Fixpoint dict_lookup (k : string) (errors : list (string * nat)) : option nat :=
  match errors with
  | [] => None
  | (k', n) :: rest => if k =? k' then Some n else dict_lookup k rest
  end.

(** [except json.JSONDecodeError]: [json.loads] raises no subclass of it. *)
Definition is_JSONDecodeError (e : exn) : bool :=
  exn_name e =? "JSONDecodeError".

(** Lines 166-175 of [main]: the generations read from the lines of the
    file, numbered from [line_num], with the warnings printed. *)
Fixpoint load_generations (line_num : nat) (lines : list string)
  : outcome (list json) * list string :=
  match lines with
  | [] => (Ret [], [])
  | line :: rest =>
      let line := strip line in
      if line =? "" then load_generations (S line_num) rest
      else
        match json_loads line with
        | Ret g =>
            match load_generations (S line_num) rest with
            | (Ret gens, printed) => (Ret (g :: gens), printed)
            | (Raise e, printed) => (Raise e, printed)
            end
        | Raise e =>
            if is_JSONDecodeError e
            then
              match load_generations (S line_num) rest with
              | (r, printed) =>
                  (r, ("Warning: Skipping malformed line "
                         ++ string_of_nat line_num ++ ": " ++ message e) :: printed)
              end
            else (Raise e, [])
        end
  end.

(** ** utils.py *)

(** Lines 4-13: the problems read from the lines of the file at [path],
    with the warnings printed. *)
Fixpoint read_json (path : string) (lines : list string)
  : outcome (list json) * list string :=
  match lines with
  | [] => (Ret [], [])
  | line :: rest =>
      match json_loads line with
      | Ret problem =>
          match read_json path rest with
          | (Ret problems, printed) => (Ret (problem :: problems), printed)
          | (Raise e, printed) => (Raise e, printed)
          end
      | Raise e =>
          if is_JSONDecodeError e
          then
            match read_json path rest with
            | (r, printed) =>
                (r, ("Warning: Skipping malformed line in " ++ path) :: printed)
            end
          else (Raise e, [])
      end
  end.

(** Line 27 of generation.py, [[json.loads(line) for line in f]]: the same
    file read without a guard. *)
Fixpoint loads_all (lines : list string) : outcome (list json) :=
  match lines with
  | [] => Ret []
  | line :: rest =>
      match json_loads line with
      | Ret problem =>
          match loads_all rest with
          | Ret problems => Ret (problem :: problems)
          | Raise e => Raise e
          end
      | Raise e => Raise e
      end
  end.

(** [value.strip()] on a decoded document: only a str has the method. *)
Definition py_strip (j : json) : outcome string :=
  match j with
  | JStr s => Ret (strip s)
  | _ =>
      Raise (builtin_error "AttributeError"
               ("'" ++ type_name j ++ "' object has no attribute 'strip'"))
  end.

(** [f"{value}"]: a str as it is, another document through [str]. *)
Definition format_value (j : json) : string :=
  match j with
  | JStr s => s
  | _ => str_json j
  end.

Definition prompt_header : string :=
  "You are an expert Python programmer." ++ nl
  ++ "Write ONLY valid Python code between <START_CODE> and <END_CODE>." ++ nl
  ++ "Do NOT include explanations or comments outside the code." ++ nl ++ nl.

Definition prompt_footer : string :=
  "Your answer must be wrapped in markers:" ++ nl
  ++ "<START_CODE>" ++ nl
  ++ "# your complete solution here" ++ nl
  ++ "<END_CODE>" ++ nl.

(** Lines 27-52. *)
Definition generate_prompt (problem : json) : outcome string :=
  match at_line "utils.py" 28 (py_get problem "question" (JStr "")) with
  | Raise e => Raise e
  | Ret q =>
      match at_line "utils.py" 28 (py_strip q) with
      | Raise e => Raise e
      | Ret question =>
          match at_line "utils.py" 29 (py_get problem "starter_code" (JStr "")),
                at_line "utils.py" 30 (py_get problem "fn_name" JNull) with
          | Ret starter, Ret fn_name =>
              let prompt :=
                prompt_header ++ "QUESTION:" ++ nl ++ question ++ nl ++ nl in
              let prompt :=
                if truthy starter
                then prompt ++ "Starter code:" ++ nl ++ format_value starter ++ nl ++ nl
                else prompt in
              let prompt :=
                if truthy fn_name
                then prompt ++ "Implement the function `" ++ format_value fn_name
                            ++ "` exactly." ++ nl ++ nl
                else prompt in
              Ret (prompt ++ prompt_footer)
          | Raise e, _ => Raise e
          | _, Raise e => Raise e
          end
      end
  end.

End Harness.

(** The rest of utils.py. *)

Definition validate_io (io_data : json) : bool * string :=
  match io_data with
  | JDict kv =>
      match assoc "inputs" kv, assoc "outputs" kv with
      | Some inputs, Some outputs =>
          match inputs, outputs with
          | JList ins, JList outs =>
              if negb (length ins =? length outs)%nat
              then (false, "Input/output length mismatch")
              else (true, "Valid")
          | _, _ => (false, "inputs/outputs must be lists")
          end
      | _, _ => (false, "Missing inputs/outputs")
      end
  | _ => (false, "Not a dict")
  end.

(** ** CPython on a handful of candidate programs

    Instances of [Python] that give the programs below the behaviour
    CPython 3.11 gives them, and reject every other source text.  [python]
    knows all of them.  [tame] is the interpreter started with
    [PYTHONINTMAXSTRDIGITS=0] (no limit on [str] of an int) and does not
    know the two programs that call [sys.exit].  The text of a traceback is
    abridged to its first and last line.  They are the interpreters of the
    concrete runs in this file; no general statement depends on them. *)

Module Toy.

Definition quoted (s : string) : string :=
  String (ascii_of_nat 34) s ++ String (ascii_of_nat 34) "".

(** *** Candidate sources *)

Definition add_src : string :=
  "def add(a, b):" ++ nl ++ "    return a + b".

Definition sub_src : string :=
  "def add(a, b):" ++ nl ++ "    return a - b".

Definition print5_src : string := "print(5)".

Definition broken_src : string := "def add(a, b) return a + b".

Definition exit_src : string := "import sys" ++ nl ++ "sys.exit(0)".

Definition solve_src : string :=
  "import sys" ++ nl ++ "def solve(n):" ++ nl ++ "    sys.exit(0)".

Definition power_src : string :=
  "def power(n):" ++ nl ++ "    return 10 ** 5000".

Definition double_src : string :=
  "import numpy" ++ nl ++ "def double(n):" ++ nl ++ "    return numpy.int64(2 * n)".

Definition check_src : string :=
  "def check(n):" ++ nl ++ "    raise ValueError('bad')".

(** U+2003, EM SPACE. *)
Definition em_space : string :=
  String (ascii_of_nat 226) (String (ascii_of_nat 128) (String (ascii_of_nat 131) "")).

Definition wide_src : string := "print('5\u2003')".

Definition sleep_src : string := "import time" ++ nl ++ "time.sleep(11)".

Definition mute_src : string :=
  "class Mute(Exception):" ++ nl
  ++ "    def __str__(self):" ++ nl
  ++ "        raise ValueError('no text')" ++ nl
  ++ "raise Mute()".

Definition echo_src : string :=
  "class Echo(Exception):" ++ nl
  ++ "    def __str__(self):" ++ nl
  ++ "        raise self" ++ nl
  ++ "raise Echo()".

(** *** Objects and store *)

Inductive fn : Type := Add | Sub | Solve | Power | Double | Check.

Inductive object : Type :=
| Console                (* the stream the process started with *)
| Buffer (id : nat)      (* a StringIO *)
| ModuleObj (id : nat)
| Function (f : fn)
| Int (z : Z)            (* int *)
| Int64 (z : Z)          (* numpy.int64 *)
| NpBool (b : bool).     (* numpy.bool_ *)

(** The text of each buffer, and the source last executed in each module. *)
Record store : Type := Store {
  buffers : list string;
  modules : list string
}.

Fixpoint update (l : list string) (i : nat) (f : string -> string) : list string :=
  match l, i with
  | [], _ => []
  | x :: l', O => f x :: l'
  | x :: l', S i' => x :: update l' i' f
  end.

Definition toy_world : Type := world store object.

(** The first and the last line of a traceback: the frames between them
    name files of the installation and are left out. *)
Definition toy_traceback (name msg : string) : string :=
  "Traceback (most recent call last):" ++ nl
  ++ (if msg =? "" then name else name ++ ": " ++ msg) ++ nl.

(** An exception of a builtin class deriving from [Exception]. *)
Definition python_error (name msg : string) : exn :=
  {| exn_name := name;
     exn_str := Some msg;
     exn_format_exc := toy_traceback name msg;
     exn_is_Exception := true |}.

(** An exception whose class derives from [BaseException] only. *)
Definition base_error (name msg : string) : exn :=
  {| exn_name := name;
     exn_str := Some msg;
     exn_format_exc := toy_traceback name msg;
     exn_is_Exception := false |}.

(** An exception of a class of the candidate that defines [__str__]. *)
Definition candidate_error (name : string) : exn :=
  {| exn_name := name;
     exn_str := None;
     exn_format_exc := toy_traceback ("tmp." ++ name) "<exception str() failed>";
     exn_is_Exception := true |}.

Definition mute : exn := candidate_error "Mute".

Definition echo : exn := candidate_error "Echo".

(** [str(e)] for the two classes above. *)
Definition toy_str_exn (e : exn) : M toy_world string :=
  if exn_name e =? "Mute" then raise (python_error "ValueError" "no text")
  else if exn_name e =? "Echo" then raise e
  else ret "".

(** [time.sleep(seconds)]: an alarm that is due before the end interrupts
    the sleep, and its handler raises [Timeout] from there. *)
Definition sleep (seconds : nat) : M toy_world unit :=
  fun w =>
    if ((0 <? alarm w) && (alarm w <=? seconds))%nat
    then (Raise (Timeout (toy_traceback "testing_utils.Timeout" "")), set_alarm 0 w)
    else (Ret tt, set_alarm (alarm w - seconds) w).

Definition system_exit : exn := base_error "SystemExit" "0".

(** What compiling a source that is not a program raises: [broken_src]
    lacks a colon, and no other text is known. *)
Definition missing_colon : exn :=
  python_error "SyntaxError" "expected ':' (<string>, line 1)".

Definition invalid_syntax : exn :=
  python_error "SyntaxError" "invalid syntax (<string>, line 1)".

Definition functions_of (src : string) : list (string * fn) :=
  if src =? add_src then [("add", Add)]
  else if src =? sub_src then [("add", Sub)]
  else if src =? solve_src then [("solve", Solve)]
  else if src =? power_src then [("power", Power)]
  else if src =? double_src then [("double", Double)]
  else if src =? check_src then [("check", Check)]
  else [].

Fixpoint lookup_fn (k : string) (l : list (string * fn)) : option fn :=
  match l with
  | [] => None
  | (k', f) :: l' => if k =? k' then Some f else lookup_fn k l'
  end.

Definition toy_module_from_spec (_ : string) (h : store) : object * store :=
  (ModuleObj (length (modules h)),
   {| buffers := buffers h; modules := modules h ++ [""] |}).

Definition toy_StringIO (h : store) : object * store :=
  (Buffer (length (buffers h)),
   {| buffers := buffers h ++ [""]; modules := modules h |}).

(** [print(text)]: the text and a newline go to what [sys.stdout] is bound to. *)
Definition print (text : string) (w : toy_world) : toy_world :=
  match sys_stdout w with
  | Buffer id =>
      set_heap {| buffers := update (buffers (heap w)) id (fun old => old ++ text ++ nl);
                  modules := modules (heap w) |} w
  | _ => w
  end.

Definition define (src : string) (modl : object) (w : toy_world) : toy_world :=
  match modl with
  | ModuleObj id =>
      set_heap {| buffers := buffers (heap w);
                  modules := update (modules (heap w)) id (fun _ => src) |} w
  | _ => w
  end.

Definition known (tame : bool) (src : string) : bool :=
  if tame then negb ((src =? exit_src) || (src =? solve_src)) else true.

Definition toy_exec (tame : bool) (code : json) (modl : object) : M toy_world unit :=
  match code with
  | JStr src =>
      if negb (known tame src) then raise invalid_syntax
      else if src =? broken_src then raise missing_colon
      else if src =? exit_src then raise system_exit
      else if src =? print5_src then
        fun w => (Ret tt, print "5" (define src modl w))
      else if src =? wide_src then
        fun w => (Ret tt, print ("5" ++ em_space) (define src modl w))
      else if src =? sleep_src then
        fun w => sleep 11 (define src modl w)
      else if src =? mute_src then raise mute
      else if src =? echo_src then raise echo
      else match functions_of src with
           | [] => raise invalid_syntax
           | _ => fun w => (Ret tt, define src modl w)
           end
  | _ => raise (python_error "TypeError" "exec() arg 1 must be a string, bytes or code object")
  end.

Definition toy_getattr (modl : object) (attr : json) : M toy_world object :=
  fun w =>
    match modl, attr with
    | ModuleObj id, JStr a =>
        match lookup_fn a (functions_of (nth id (modules (heap w)) "")) with
        | Some f => (Ret (Function f), w)
        | None =>
            (Raise (python_error "AttributeError"
                      ("module 'tmp' has no attribute '" ++ a ++ "'")), w)
        end
    | _, _ =>
        (Raise (python_error "TypeError"
                  ("attribute name must be string, not '" ++ type_name attr ++ "'")), w)
    end.

Definition toy_call (tame : bool) (f : object) (args : list json) : M toy_world object :=
  match f, args with
  | Function Add, [JInt a; JInt b] => ret (Int (a + b))
  | Function Sub, [JInt a; JInt b] => ret (Int (a - b))
  | Function Solve, [_] =>
      if tame then raise (python_error "TypeError" "unsupported call")
      else raise system_exit
  | Function Power, [_] => ret (Int (10 ^ 5000))
  | Function Double, [JInt n] => ret (Int64 (2 * n))
  | Function Check, [_] => raise (python_error "ValueError" "bad")
  | _, _ => raise (python_error "TypeError" "unsupported call")
  end.

Definition toy_eq (got : object) (expected : json) : M toy_world (pyobj object) :=
  match got, expected with
  | Int a, JInt b => ret (PyBool (a =? b)%Z)
  | Int a, JBool b => ret (PyBool (a =? (if b then 1 else 0))%Z)
  | Int64 a, JInt b => ret (PyObj (NpBool (a =? b)%Z))
  | Int64 a, JBool b => ret (PyObj (NpBool (a =? (if b then 1 else 0))%Z))
  | Int64 _, _ => ret (PyObj (NpBool false))
  | _, _ => ret (PyBool false)
  end.

Definition toy_truth (v : object) : M toy_world bool :=
  match v with
  | NpBool b => ret b
  | Int64 z => ret (negb (z =? 0)%Z)
  | _ => ret true
  end.

Definition string_of_Z (z : Z) : string :=
  DecimalString.NilZero.string_of_int (Z.to_int z).

Definition digits_message : string :=
  "Exceeds the limit (4300 digits) for integer string conversion; "
  ++ "use sys.set_int_max_str_digits() to increase the limit".

(** [str] of an int stops at 4300 digits (sys.get_int_max_str_digits()),
    unless the limit is switched off. *)
Definition toy_str (tame : bool) (v : object) : M toy_world string :=
  match v with
  | Int z =>
      if tame || (Z.abs z <? 10 ^ 4300)%Z then ret (string_of_Z z)
      else raise (python_error "ValueError" digits_message)
  | Int64 z => ret (string_of_Z z)
  | NpBool b => ret (if b then "True" else "False")
  | _ => ret "<object>"
  end.

(** [repr] of a decoded document; strings are assumed free of quotes and
    escapes, and floats do not occur in the runs below. *)
Fixpoint repr_json (j : json) : string :=
  match j with
  | JNull => "None"
  | JBool b => if b then "True" else "False"
  | JInt z => string_of_Z z
  | JFloat _ => "nan"
  | JStr s => "'" ++ s ++ "'"
  | JList l =>
      "[" ++ (fix items (l : list json) : string :=
                match l with
                | [] => ""
                | x :: l' =>
                    repr_json x ++ match l' with [] => "" | _ => ", " ++ items l' end
                end) l ++ "]"
  | JDict d =>
      "{" ++ (fix items (d : list (string * json)) : string :=
                match d with
                | [] => ""
                | (k, x) :: d' =>
                    "'" ++ k ++ "': " ++ repr_json x
                    ++ match d' with [] => "" | _ => ", " ++ items d' end
                end) d ++ "}"
  end.

Definition toy_str_json (j : json) : string :=
  match j with
  | JStr s => s
  | _ => repr_json j
  end.

Definition toy_getvalue (stream : object) : M toy_world string :=
  fun w =>
    match stream with
    | Buffer id => (Ret (nth id (buffers (heap w)) ""), w)
    | _ =>
        (Raise (python_error "AttributeError"
                  "'_io.TextIOWrapper' object has no attribute 'getvalue'"), w)
    end.

Definition toy_ast_parse (tame : bool) (code : json) : bool :=
  match code with
  | JStr src =>
      known tame src
      && ((src =? exit_src) || (src =? print5_src) || (src =? wide_src)
          || (src =? sleep_src) || (src =? mute_src) || (src =? echo_src)
          || match functions_of src with [] => false | _ => true end)
  | _ => false
  end.

(** *** Test specifications, as texts and decoded *)

Definition spec_text (fn_name inputs outputs : string) : string :=
  "{" ++ quoted "fn_name" ++ ": " ++ quoted fn_name ++ ", "
      ++ quoted "inputs" ++ ": " ++ inputs ++ ", "
      ++ quoted "outputs" ++ ": " ++ outputs ++ "}".

Definition spec_doc (fn_name : string) (inputs outputs : list json) : json :=
  JDict [("fn_name", JStr fn_name); ("inputs", JList inputs); ("outputs", JList outputs)].

Definition script_text (inputs outputs : string) : string :=
  "{" ++ quoted "inputs" ++ ": " ++ inputs ++ ", "
      ++ quoted "outputs" ++ ": " ++ outputs ++ "}".

Definition script_doc (inputs outputs : list json) : json :=
  JDict [("inputs", JList inputs); ("outputs", JList outputs)].

(** The documents [json_loads] knows. *)
Definition documents : list (string * json) :=
  [ (spec_text "add" "[[1, 2]]" "[3]",
     spec_doc "add" [JList [JInt 1; JInt 2]] [JInt 3]);
    (spec_text "add" "[[1, 2], [2, 2]]" "[3, 4]",
     spec_doc "add" [JList [JInt 1; JInt 2]; JList [JInt 2; JInt 2]] [JInt 3; JInt 4]);
    (spec_text "add" "[]" "[]", spec_doc "add" [] []);
    (spec_text "solve" "[1, 2]" "[1, 2]",
     spec_doc "solve" [JInt 1; JInt 2] [JInt 1; JInt 2]);
    (spec_text "power" "[1]" "[0]", spec_doc "power" [JInt 1] [JInt 0]);
    (spec_text "double" "[2]" "[4]", spec_doc "double" [JInt 2] [JInt 4]);
    (spec_text "check" "[1, 2]" "[1]", spec_doc "check" [JInt 1; JInt 2] [JInt 1]);
    (spec_text "add" "[[1, 2], [2, 2]]" "[3]",
     spec_doc "add" [JList [JInt 1; JInt 2]; JList [JInt 2; JInt 2]] [JInt 3]);
    (script_text ("[" ++ quoted "" ++ "]") ("[" ++ quoted "5" ++ "]"),
     script_doc [JStr ""] [JStr "5"]);
    (script_text ("[" ++ quoted "" ++ "]") ("[" ++ quoted "6" ++ "]"),
     script_doc [JStr ""] [JStr "6"]);
    ("{}", JDict []) ].

Fixpoint lookup_doc (text : string) (l : list (string * json)) : option json :=
  match l with
  | [] => None
  | (t, d) :: l' => if text =? t then Some d else lookup_doc text l'
  end.

Definition toy_json_loads (text : string) : outcome json :=
  match lookup_doc text documents with
  | Some d => Ret d
  | None => Raise (python_error "JSONDecodeError" "Expecting value: line 1 column 1 (char 0)")
  end.

Definition toy_json_loads_str (text : string) (e : exn)
  : toy_json_loads text = Raise e -> exn_str e <> None.
Proof.
  unfold toy_json_loads. destruct (lookup_doc text documents); [discriminate|].
  intros [= <-]. discriminate.
Qed.

(** [json.dumps] is not called in the runs below: their [input_output] is
    a string. *)
Definition toy_json_dumps (_ : json) : string := "null".

Definition interpreter (tame : bool) : Python store object := {|
  module_from_spec := toy_module_from_spec;
  exec := toy_exec tame;
  getattr := toy_getattr;
  call := toy_call tame;
  py_eq := toy_eq;
  truth := toy_truth;
  py_str := toy_str tame;
  str_json := toy_str_json;
  StringIO := toy_StringIO;
  getvalue := toy_getvalue;
  ast_parse := toy_ast_parse tame;
  json_loads := toy_json_loads;
  json_dumps := toy_json_dumps;
  str_exn := toy_str_exn;
  format_exc_builtin := fun _ _ => toy_traceback;
  json_loads_str := toy_json_loads_str
|}.

Definition python : Python store object := interpreter false.

Definition tame : Python store object := interpreter true.

(** A process that has just imported the harness. *)
Definition w0 : toy_world :=
  {| sys_stdout := Console; alarm := 0; heap := {| buffers := []; modules := [] |} |}.

(** A generation, as a line of the generation file decodes. *)
Definition fields (task : string) (code : string) (io : string) : list (string * json) :=
  [("task_id", JStr task); ("deal_response", JStr code); ("input_output", JStr io)].

Definition generation (task : string) (code : string) (io : string) : json :=
  JDict (fields task code io).

(** The process once [create_module_from_string("tmp", src)] has run, and
    the frame in which the loop of [run_test] then starts. *)
Definition loaded (py : Python store object) (src : string) : toy_world :=
  snd (create_module_from_string "tmp" (JStr src) w0).

Definition start (py : Python store object) (src : string) : frame :=
  {| the_world := loaded py src; res := []; err := [] |}.

(** Test specifications of the runs. *)
Definition add_io : string := spec_text "add" "[[1, 2]]" "[3]".
Definition add2_io : string := spec_text "add" "[[1, 2], [2, 2]]" "[3, 4]".
Definition add_none_io : string := spec_text "add" "[]" "[]".
Definition power_io : string := spec_text "power" "[1]" "[0]".
Definition double_io : string := spec_text "double" "[2]" "[4]".
Definition print5_io : string :=
  script_text ("[" ++ quoted "" ++ "]") ("[" ++ quoted "5" ++ "]").
Definition print6_io : string :=
  script_text ("[" ++ quoted "" ++ "]") ("[" ++ quoted "6" ++ "]").

(** *** Further test specifications *)

(** A script specification whose one input is ["7"], and a specification
    whose inputs are a number. *)
Definition print5_seven_io : string :=
  script_text ("[" ++ quoted "7" ++ "]") ("[" ++ quoted "5" ++ "]").

Definition add_number_io : string := spec_text "add" "5" "[3]".

(** A script specification that expects no output. *)
Definition silent_io : string :=
  script_text ("[" ++ quoted "" ++ "]") ("[" ++ quoted "" ++ "]").

Definition more_documents : list (string * json) :=
  (documents
   ++ [ (print5_seven_io, script_doc [JStr "7"] [JStr "5"]);
        (add_number_io,
         JDict [("fn_name", JStr "add"); ("inputs", JInt 5);
                ("outputs", JList [JInt 3])]);
        (silent_io, script_doc [JStr ""] [JStr ""]) ])%list.

Definition reader_json_loads (text : string) : outcome json :=
  match lookup_doc text more_documents with
  | Some d => Ret d
  | None => Raise (python_error "JSONDecodeError" "Expecting value: line 1 column 1 (char 0)")
  end.

Definition reader_json_loads_str (text : string) (e : exn)
  : reader_json_loads text = Raise e -> exn_str e <> None.
Proof.
  unfold reader_json_loads. destruct (lookup_doc text more_documents); [discriminate|].
  intros [= <-]. discriminate.
Qed.

(** The interpreter [python], with a decoder that knows these as well. *)
Definition reader : Python store object := {|
  module_from_spec := toy_module_from_spec;
  exec := toy_exec false;
  getattr := toy_getattr;
  call := toy_call false;
  py_eq := toy_eq;
  truth := toy_truth;
  py_str := toy_str false;
  str_json := toy_str_json;
  StringIO := toy_StringIO;
  getvalue := toy_getvalue;
  ast_parse := toy_ast_parse false;
  json_loads := reader_json_loads;
  json_dumps := toy_json_dumps;
  str_exn := toy_str_exn;
  format_exc_builtin := fun _ _ => toy_traceback;
  json_loads_str := reader_json_loads_str
|}.


End Toy.

(** * Properties *)

Section Properties.

Context {H V : Type} {py : Python H V}.

Variable platform_system : string.

#[local] Abbreviation World := (world H V).
#[local] Abbreviation Frame := (@frame H V).

(** ** Unfolding the monad *)

Ltac unfold_monad :=
  unfold bind, ret, raise, get, modify, pure, try_except, try_finally,
    lift, zoom, alloc in *.

Lemma arm_eq : forall f : Frame,
  arm platform_system f
  = (Ret tt, with_world (alarm_if_available platform_system TIMEOUT (the_world f)) f).
Proof.
  intros [w r e]. unfold arm, alarm_if_available, signal_alarm, with_world.
  destruct (SIGNAL_AVAILABLE platform_system); reflexivity.
Qed.

Lemma disarm_eq : forall f : Frame,
  disarm platform_system f
  = (Ret tt, with_world (alarm_if_available platform_system 0 (the_world f)) f).
Proof.
  intros [w r e]. unfold disarm, alarm_if_available, signal_alarm, with_world.
  destruct (SIGNAL_AVAILABLE platform_system); reflexivity.
Qed.

Lemma sys_stdout_alarm_if_available : forall n (w : World),
  sys_stdout (alarm_if_available platform_system n w) = sys_stdout w.
Proof.
  intros. unfold alarm_if_available.
  destruct (SIGNAL_AVAILABLE platform_system); reflexivity.
Qed.

Lemma heap_alarm_if_available : forall n (w : World),
  heap (alarm_if_available platform_system n w) = heap w.
Proof.
  intros. unfold alarm_if_available.
  destruct (SIGNAL_AVAILABLE platform_system); reflexivity.
Qed.

(** The world in which the candidate source runs under capture: a new
    buffer is bound to [sys.stdout]. *)
Lemma capture_eq : forall (code : json) (modl : V) (w : World),
  _run_script_and_capture_output code modl w
  = try_finally
      (exec code modl ;; stream <- (w' <- get ;; ret (sys_stdout w')) ;; getvalue stream)
      (modify (set_stdout (sys_stdout w)))
      (set_stdout (fst (StringIO (heap w))) (set_heap (snd (StringIO (heap w))) w)).
Proof.
  intros. unfold _run_script_and_capture_output. unfold_monad.
  destruct (exec code modl _) as [[[]|e] w1]; simpl.
  - destruct (getvalue (sys_stdout w1) w1) as [[s|e] w2]; reflexivity.
  - reflexivity.
Qed.

(** ** Script mode: capture and verdict *)

Lemma capture_restores : forall (code : json) (modl : V) (w : World),
  sys_stdout (snd (_run_script_and_capture_output code modl w)) = sys_stdout w.
Proof.
  intros. rewrite capture_eq. unfold_monad.
  destruct (exec code modl _) as [[[]|e] w1]; simpl.
  - destruct (getvalue (sys_stdout w1) w1) as [[s|e] w2]; reflexivity.
  - reflexivity.
Qed.

(** The appends and the alarm leave [sys.stdout] alone. *)
Lemma script_case_keeps_stdout :
  forall (outs test : json) (modl : V) (i : nat) (f : Frame),
    sys_stdout (the_world (snd (script_case outs test modl i f)))
    = sys_stdout (the_world f).
Proof.
  intros. unfold script_case, res_append, err_append. unfold_monad.
  pose proof (capture_restores test modl (the_world f)) as Hr.
  destruct (_run_script_and_capture_output test modl (the_world f)) as [[output|e] w1];
    simpl in *; [|exact Hr].
  destruct (py_index outs i) as [expected|e]; simpl; exact Hr.
Qed.

(** C9. Running the candidate source under capture leaves [sys.stdout]
    bound to the stream it was bound to before the call, whether the call
    returns or raises (any exception, also one that [except Exception] does
    not catch); the candidate source runs once, in the state where a new
    buffer is bound to [sys.stdout]; and a whole iteration of the loop in
    script mode ends with [sys.stdout] as it found it, so the next case
    starts from the original stream. *)
Theorem stdout_restored_on_every_exit :
  forall (code : json) (modl : V) (w : World),
    sys_stdout (snd (_run_script_and_capture_output code modl w)) = sys_stdout w
    /\ _run_script_and_capture_output code modl w
       = try_finally
           (exec code modl ;;
            stream <- (w' <- get ;; ret (sys_stdout w')) ;; getvalue stream)
           (modify (set_stdout (sys_stdout w)))
           (set_stdout (fst (StringIO (heap w))) (set_heap (snd (StringIO (heap w))) w))
    /\ (forall (fn_name outs : json) (c : nat * json) (f : Frame),
          truthy fn_name = false ->
          sys_stdout (the_world (snd (run_case platform_system fn_name outs code modl c f)))
          = sys_stdout (the_world f)).
Proof.
  intros code modl w. split; [apply capture_restores|].
  split; [apply capture_eq|].
  intros fn_name outs [i inp] f Hscript.
  unfold run_case, case_body, case_handler. rewrite Hscript.
  unfold bind at 1 2 3, try_except. rewrite arm_eq. simpl fst; simpl snd.
  pose proof (script_case_keeps_stdout outs code modl i
                (with_world (alarm_if_available platform_system TIMEOUT (the_world f)) f)) as Hk.
  simpl in Hk. rewrite sys_stdout_alarm_if_available in Hk.
  destruct (script_case outs code modl i _) as [[[]|e] f1]; simpl in *.
  - rewrite disarm_eq. simpl. rewrite sys_stdout_alarm_if_available. exact Hk.
  - destruct (exn_is_Exception e); simpl; [|exact Hk].
    unfold bind, res_append, err_append, modify. rewrite disarm_eq. simpl.
    rewrite sys_stdout_alarm_if_available. exact Hk.
Qed.

(** ** Trimming *)

Lemma characters_step : forall (b b' : ascii) (r : string),
  characters (String b (String b' r))
  = if is_continuation b'
    then match characters (String b' r) with
         | c :: cs => String b c :: cs
         | [] => [String b EmptyString]
         end
    else String b EmptyString :: characters (String b' r).
Proof. reflexivity. Qed.

(** A str is the concatenation of its characters. *)
Lemma join_characters : forall s : string, join (characters s) = s.
Proof.
  induction s as [|b rest IH]; [reflexivity|].
  destruct rest as [|b' r]; [reflexivity|].
  rewrite characters_step.
  destruct (is_continuation b').
  - destruct (characters (String b' r)) as [|c cs]; [discriminate|].
    cbn [join append] in *. rewrite IH. reflexivity.
  - cbn [join append]. rewrite IH. reflexivity.
Qed.

Lemma take_drop_while : forall {A} (p : A -> bool) (l : list A),
  l = (take_while p l ++ drop_while p l)%list.
Proof.
  intros A p l. induction l as [|x l IH]; [reflexivity|].
  simpl. destruct (p x); [simpl; f_equal; exact IH|reflexivity].
Qed.

Lemma forallb_take_while : forall {A} (p : A -> bool) (l : list A),
  forallb p (take_while p l) = true.
Proof.
  intros A p l. induction l as [|x l IH]; [reflexivity|].
  simpl. destruct (p x) eqn:E; [simpl; rewrite E; exact IH|reflexivity].
Qed.

Lemma hd_drop_while : forall {A} (p : A -> bool) (l : list A) (x : A),
  hd_error (drop_while p l) = Some x -> p x = false.
Proof.
  intros A p l x. induction l as [|y l IH]; [discriminate|].
  simpl. destruct (p y) eqn:E; [exact IH|].
  intros [= <-]. exact E.
Qed.

Lemma forallb_rev : forall {A} (p : A -> bool) (l : list A),
  forallb p l = true -> forallb p (rev l) = true.
Proof.
  intros A p l Hl. apply forallb_forall. intros x Hx.
  apply in_rev in Hx. rewrite forallb_forall in Hl. apply Hl. exact Hx.
Qed.

(** [strip] takes off the whitespace characters at both ends, and nothing
    else. *)
Lemma strip_trims : forall s : string, trimmed s (strip s).
Proof.
  intros s. unfold trimmed, strip, rstrip, lstrip.
  set (cs := characters s).
  set (l := drop_while isspace cs).
  exists (take_while isspace cs), (rev (drop_while isspace (rev l))),
    (rev (take_while isspace (rev l))).
  assert (Hl : l = (rev (drop_while isspace (rev l))
                    ++ rev (take_while isspace (rev l)))%list).
  { rewrite <- rev_app_distr, <- take_drop_while, rev_involutive. reflexivity. }
  split; [|split; [|split; [|split; [|split; [|split]]]]].
  - rewrite <- Hl. apply take_drop_while.
  - apply join_characters.
  - reflexivity.
  - apply forallb_take_while.
  - apply forallb_rev, forallb_take_while.
  - intros c Hc. apply (hd_drop_while isspace cs). fold l. rewrite Hl.
    destruct (rev (drop_while isspace (rev l))); [discriminate|exact Hc].
  - intros c Hc. rewrite rev_involutive in Hc.
    apply (hd_drop_while isspace (rev l)). exact Hc.
Qed.

(** C4. In script mode (the test specification has no entry point), an
    iteration runs the whole candidate source once more in the module's
    namespace, with a new buffer bound to [sys.stdout]; when that run
    returns, the text read from the stream is [output], and the expected
    output of the case exists, the verdict appended is [True] exactly when
    [output.strip() == str(expected).strip()], with error [None]; otherwise
    the verdict is [False] and the error is [WrongStdout] with [output], the
    captured text untrimmed, as its value.  The two sides of the comparison
    are the two texts without the whitespace characters they start and end
    with (the characters for which [str.isspace] holds, those beyond ASCII
    included), and with nothing else taken off. *)
Theorem script_mode_verdict :
  forall (fn_name outs test : json) (modl : V) (i : nat) (inp : json) (f : Frame)
         (w1 w2 : World) (output : string) (expected : json),
    truthy fn_name = false ->
    let w0 := alarm_if_available platform_system TIMEOUT (the_world f) in
    exec test modl
      (set_stdout (fst (StringIO (heap w0))) (set_heap (snd (StringIO (heap w0))) w0))
    = (Ret tt, w1) ->
    getvalue (sys_stdout w1) w1 = (Ret output, w2) ->
    py_index outs i = Ret expected ->
    let ok := strip output =? strip (str_json expected) in
    run_case platform_system fn_name outs test modl (i, inp) f
    = (Ret tt,
       {| the_world :=
            alarm_if_available platform_system 0
              (set_stdout (sys_stdout (the_world f)) w2);
          res := res f ++ [PyBool ok];
          err := err f ++ [if ok then None
                           else Some {| name := "WrongStdout"; value := output |}] |})
    /\ trimmed output (strip output)
    /\ trimmed (str_json expected) (strip (str_json expected)).
Proof.
  intros fn_name outs test modl i inp f w1 w2 output expected Hscript w0 Hexec Hget Hidx ok.
  split; [|split; apply strip_trims].
  unfold run_case, case_body. rewrite Hscript. simpl fst; simpl snd.
  unfold try_except, bind at 1 2. rewrite arm_eq.
  unfold script_case, bind at 1, lift, zoom. simpl the_world. fold w0.
  rewrite capture_eq. unfold try_finally, bind at 1. rewrite Hexec.
  unfold bind at 1 2, get, ret. rewrite Hget.
  unfold modify, pure, bind, res_append, err_append, modify. rewrite Hidx.
  cbn [at_line]. rewrite disarm_eq. unfold with_world; simpl.
  subst w0. rewrite sys_stdout_alarm_if_available. reflexivity.
Qed.

(** ** One iteration of the loop *)

Lemma case_handler_eq : forall (e : exn) (f : Frame),
  case_handler platform_system e f = (Ret tt, handled platform_system e f).
Proof.
  intros. unfold case_handler, bind. rewrite disarm_eq.
  unfold res_append, err_append, modify. reflexivity.
Qed.

Lemma run_case_returned :
  forall fn_name outs test modl (c : nat * json) (f f1 : Frame),
    case_body platform_system fn_name outs test modl (fst c) (snd c) f = (Ret tt, f1) ->
    run_case platform_system fn_name outs test modl c f = (Ret tt, f1).
Proof. intros * Hb. unfold run_case, try_except. rewrite Hb. reflexivity. Qed.


Lemma run_case_escaped :
  forall fn_name outs test modl (c : nat * json) (f f1 : Frame) (e : exn),
    case_body platform_system fn_name outs test modl (fst c) (snd c) f = (Raise e, f1) ->
    exn_is_Exception e = false ->
    run_case platform_system fn_name outs test modl c f = (Raise e, f1).
Proof. intros * Hb He. unfold run_case, try_except. rewrite Hb, He. reflexivity. Qed.


(** ** Function mode *)

(** X17. In function mode (the test specification names an entry point),
    when the attribute lookup and the call return, the expected value
    exists and the comparison returns a bool [b]: the verdict appended is
    [b]; on [True] the error is [None]; on [False], when [str(got)] returns
    [s], the error is [WrongOutput] with value [s]. *)
Lemma function_mode_verdict :
  forall (fn_name outs test : json) (modl : V) (i : nat) (inp : json) (f : Frame)
         (fn got : V) (expected : json) (b : bool) (s : string)
         (w1 w2 w3 w4 : World),
    truthy fn_name = true ->
    getattr modl fn_name (alarm_if_available platform_system TIMEOUT (the_world f))
    = (Ret fn, w1) ->
    call fn (arguments inp) w1 = (Ret got, w2) ->
    py_index outs i = Ret expected ->
    py_eq got expected w2 = (Ret (PyBool b), w3) ->
    (if b then w4 = w3 else py_str got w3 = (Ret s, w4)) ->
    run_case platform_system fn_name outs test modl (i, inp) f
    = (Ret tt,
       {| the_world := alarm_if_available platform_system 0 w4;
          res := res f ++ [PyBool b];
          err := err f ++ [if b then None
                           else Some {| name := "WrongOutput"; value := s |}] |}).
Proof.
  intros * Hfn Hget Hcall Hidx Heq Hstr.
  apply run_case_returned. simpl fst; simpl snd.
  unfold case_body. rewrite Hfn. unfold bind at 1 2. rewrite arm_eq.
  unfold function_case.
  unfold bind at 1, lift at 1, zoom. simpl the_world. rewrite Hget.
  unfold bind at 1, lift at 1, zoom. simpl the_world. rewrite Hcall.
  unfold bind at 1, pure. rewrite Hidx. cbn [at_line].
  unfold bind at 1, lift at 1, zoom. simpl the_world. rewrite Heq.
  unfold bind at 1, res_append, modify.
  unfold bind at 1, lift at 1, zoom. simpl the_world.
  unfold truth_of, bind at 1, ret at 1.
  destruct b.
  - subst w4. unfold ret, err_append, modify. rewrite disarm_eq. reflexivity.
  - unfold bind at 1. rewrite Hstr. unfold ret, err_append, modify.
    rewrite disarm_eq. reflexivity.
Qed.



(** ** Stepping through a body *)

Lemma bind_returned : forall {S A B} (m : M S A) (k : A -> M S B) s a s',
  m s = (Ret a, s') -> bind m k s = k a s'.
Proof. intros * E. unfold bind. rewrite E. reflexivity. Qed.

Lemma bind_raised : forall {S A B} (m : M S A) (k : A -> M S B) s e s',
  m s = (Raise e, s') -> bind m k s = (Raise e, s').
Proof. intros * E. unfold bind. rewrite E. reflexivity. Qed.

Lemma bind_pure : forall {S A B} (r : outcome A) (k : A -> M S B) s,
  bind (pure r) k s = match r with Ret a => k a s | Raise e => (Raise e, s) end.
Proof. intros. unfold bind, pure. destruct r; reflexivity. Qed.



Lemma with_world_with_world : forall (w w' : World) (f : Frame),
  with_world w (with_world w' f) = with_world w f.
Proof. reflexivity. Qed.

(** ** A case that behaves appends one verdict and one error *)





(** ** The loop *)


Lemma run_test_loaded :
  forall sample_io test io ins outs fn_name modl (w w1 : World),
    json_loads sample_io = Ret io ->
    py_get io "inputs" (JList []) = Ret ins ->
    py_get io "outputs" (JList []) = Ret outs ->
    py_get io "fn_name" JNull = Ret fn_name ->
    create_module_from_string "tmp" test w = (Ret modl, w1) ->
    run_test platform_system sample_io test w
    = (cases <- pure (at_line "testing_utils.py" 48 (py_iter ins)) ;;
       with_lists (for_each (enumerate cases)
                            (run_case platform_system fn_name outs test modl))) w1.
Proof.
  intros * Hio Hins Houts Hfn Hload. unfold run_test.
  rewrite bind_pure, Hio. cbv beta iota.
  rewrite bind_pure, Hins. cbn [at_line].
  rewrite bind_pure, Houts. cbn [at_line].
  rewrite bind_pure, Hfn. cbn [at_line].
  erewrite bind_returned
    by (unfold try_except; erewrite bind_returned by exact Hload; reflexivity).
  reflexivity.
Qed.

Lemma run_test_load_failed :
  forall sample_io test io (e : exn) (w w1 : World),
    json_loads sample_io = Ret io ->
    isinstance_dict io = true ->
    create_module_from_string "tmp" test w = (Raise e, w1) ->
    exn_is_Exception e = true ->
    run_test platform_system sample_io test w
    = match py_str_exn e w1 with
      | (Ret s, w2) => (Ret (sentinel e s), w2)
      | (Raise x, w2) => (Raise x, w2)
      end.
Proof.
  intros * Hio Hdict Hload He. unfold run_test.
  rewrite bind_pure, Hio.
  destruct io; try discriminate. simpl py_get. cbn [at_line].
  rewrite !bind_pure.
  unfold try_except, bind, ret. rewrite Hload, He.
  destruct (py_str_exn e w1) as [[s|x] w2]; reflexivity.
Qed.

Lemma run_test_load_escaped :
  forall sample_io test io (e : exn) (w w1 : World),
    json_loads sample_io = Ret io ->
    isinstance_dict io = true ->
    create_module_from_string "tmp" test w = (Raise e, w1) ->
    exn_is_Exception e = false ->
    run_test platform_system sample_io test w = (Raise e, w1).
Proof.
  intros * Hio Hdict Hload He. unfold run_test.
  rewrite bind_pure, Hio.
  destruct io; try discriminate. simpl py_get. cbn [at_line].
  rewrite !bind_pure.
  erewrite bind_raised
    by (unfold try_except; erewrite bind_raised by exact Hload;
        rewrite He; reflexivity).
  reflexivity.
Qed.

Lemma py_get_dict : forall io key default,
  isinstance_dict io = true -> exists v, py_get io key default = Ret v.
Proof.
  intros io key default Hd. destruct io; try discriminate.
  simpl. eexists. reflexivity.
Qed.


(** ** [evaluate_single] *)

Lemma evaluate_single_eq : forall (kv : list (string * json)) (w : World),
  evaluate_single platform_system (JDict kv) w
  = match run_test platform_system (generation_io kv) (generation_code kv) w with
    | (Ret (res_, err_), w') =>
        (Ret (verdict_record (generation_task_id kv)
                (check_syntax_valid (generation_code kv)) res_ err_), w')
    | (Raise e, w') =>
        if exn_is_Exception e
        then match py_str_exn e w' with
             | (Ret s, w'') =>
                 (Ret (evaluation_error (generation_task_id kv)
                         (check_syntax_valid (generation_code kv)) s), w'')
             | (Raise x, w'') => (Raise x, w'')
             end
        else (Raise e, w')
    end.
Proof.
  intros kv w. unfold evaluate_single. simpl py_get. cbn [at_line].
  rewrite !bind_pure. fold (generation_task_id kv).
  fold (generation_code kv). fold (generation_io kv).
  unfold try_except, bind, ret.
  destruct (run_test platform_system (generation_io kv) (generation_code kv) w)
    as [[[res_ err_]|e] w']; [reflexivity|].
  destruct (exn_is_Exception e); [|reflexivity].
  destruct (py_str_exn e w') as [[s|x] w'']; reflexivity.
Qed.

Lemma forallb_is_True : forall (l : list (pyobj V)),
  forallb is_True l = true <-> Forall (fun v => v = PyBool true) l.
Proof.
  intros l. rewrite forallb_forall, Forall_forall.
  split; intros Hall v Hin; specialize (Hall v Hin).
  - destruct v as [[|]| |]; try discriminate. reflexivity.
  - subst v. reflexivity.
Qed.

Lemma run_test_no_cases :
  forall sample_io test io ins modl (w w1 : World),
    json_loads sample_io = Ret io ->
    py_get io "inputs" (JList []) = Ret ins ->
    py_iter ins = Ret [] ->
    create_module_from_string "tmp" test w = (Ret modl, w1) ->
    run_test platform_system sample_io test w = (Ret ([], []), w1).
Proof.
  intros * Hio Hins Hcases Hload.
  assert (Hdict : isinstance_dict io = true) by (destruct io; try discriminate; reflexivity).
  destruct (py_get_dict io "outputs" (JList []) Hdict) as (outs & Houts).
  destruct (py_get_dict io "fn_name" JNull Hdict) as (fn_name & Hfn).
  rewrite (@run_test_loaded sample_io test io ins outs fn_name modl w w1
             Hio Hins Houts Hfn Hload).
  rewrite bind_pure, Hcases. reflexivity.
Qed.

(** C7. Whenever [run_test] returns its two lists, [evaluate_single]
    returns a record whose [passed] is [True] exactly when every verdict is
    the object [True], with [num_tests] the number of verdicts and
    [num_passed] the number of verdicts that are [True].  In particular a
    candidate that loads and has no case gets the empty verdict list,
    [passed = True], [num_tests = 0] and [num_passed = 0]; and a candidate
    whose load fails with an exception that [run_test] catches and renders
    gets the sentinel as its only verdict and [passed = False]. *)
Theorem passed_iff_every_verdict_is_True :
  forall (kv : list (string * json)) (w : World),
    (forall res_ err_ w',
        run_test platform_system (generation_io kv) (generation_code kv) w
        = (Ret (res_, err_), w') ->
        exists r,
          evaluate_single platform_system (JDict kv) w = (Ret r, w')
          /\ (passed r = true <-> Forall (fun v => v = PyBool true) res_)
          /\ num_tests r = length res_
          /\ num_passed r = length (filter is_True res_))
    /\ (forall io ins modl w1,
          json_loads (generation_io kv) = Ret io ->
          py_get io "inputs" (JList []) = Ret ins ->
          py_iter ins = Ret [] ->
          create_module_from_string "tmp" (generation_code kv) w = (Ret modl, w1) ->
          exists r,
            evaluate_single platform_system (JDict kv) w = (Ret r, w1)
            /\ error r = []
            /\ passed r = true /\ num_tests r = 0 /\ num_passed r = 0)
    /\ (forall io e s w1 w2,
          json_loads (generation_io kv) = Ret io ->
          isinstance_dict io = true ->
          create_module_from_string "tmp" (generation_code kv) w = (Raise e, w1) ->
          exn_is_Exception e = true ->
          py_str_exn e w1 = (Ret s, w2) ->
          exists r,
            evaluate_single platform_system (JDict kv) w = (Ret r, w2)
            /\ passed r = false).
Proof.
  intros kv w. split; [|split].
  - intros res_ err_ w' Hrun. rewrite evaluate_single_eq, Hrun.
    eexists. split; [reflexivity|]. simpl.
    split; [apply forallb_is_True|]. split; reflexivity.
  - intros io ins modl w1 Hio Hins Hcases Hload.
    rewrite evaluate_single_eq.
    erewrite run_test_no_cases by eassumption.
    eexists. split; [reflexivity|]. simpl. repeat split.
  - intros io e s w1 w2 Hio Hdict Hload He Hs.
    rewrite evaluate_single_eq.
    erewrite run_test_load_failed by eassumption. rewrite Hs.
    eexists. split; [reflexivity|]. reflexivity.
Qed.


(** ** The error histogram *)

Lemma sum_values_dict_incr : forall k errors,
  sum_values (dict_incr k errors) = S (sum_values errors).
Proof.
  intros k errors. induction errors as [|[k' n] rest IH]; simpl.
  - reflexivity.
  - destruct (k =? k'); simpl; [lia|]. rewrite IH. lia.
Qed.

Lemma sum_values_fold : forall (results : list result) (errors : list (string * nat)),
  sum_values
    (fold_left
       (fun errors r =>
          match error_name r with
          | Some n => if negb (n =? "") then dict_incr n errors else errors
          | None => errors
          end)
       results errors)
  = sum_values errors + length (filter classified results).
Proof.
  induction results as [|r results IH]; intros errors; simpl.
  - lia.
  - rewrite IH. unfold classified.
    destruct (error_name r) as [n|]; simpl; [|lia].
    destruct (n =? ""); simpl; [lia|].
    rewrite sum_values_dict_incr. lia.
Qed.

(** The counts of the histogram add up to the number of records that have a
    classification. *)
Lemma histogram_counts_the_classified : forall results : list result,
  sum_values (error_breakdown results) = length (filter classified results).
Proof. intros. unfold error_breakdown. rewrite sum_values_fold. reflexivity. Qed.

Lemma failed_problems_count : forall results : list result,
  failed_problems results = length (filter (fun r => negb (passed r)) results).
Proof.
  intros results. unfold failed_problems, passed_problems.
  induction results as [|r results IH]; [reflexivity|].
  pose proof (filter_length_le passed results) as Hle.
  cbn [filter]. destruct (passed r); cbn [negb length].
  - rewrite Nat.sub_succ. exact IH.
  - rewrite Nat.sub_succ_l by exact Hle. rewrite IH. reflexivity.
Qed.

(** X18. When every failing record has a classification and no passing
    one has, the histogram adds up to the number of failing candidates. *)
Lemma histogram_counts_the_failures : forall results : list result,
  Forall (fun r => classified r = negb (passed r)) results ->
  sum_values (error_breakdown results) = failed_problems results.
Proof.
  intros results Hall.
  rewrite histogram_counts_the_classified, failed_problems_count.
  induction Hall as [|r results Hr _ IH]; simpl; [reflexivity|].
  rewrite Hr. destruct (negb (passed r)); simpl; congruence.
Qed.

Lemma first_error_name_found : forall (res_ : list (pyobj V)) (err_ : list (option edesc)),
  Forall2 describes res_ err_ ->
  Forall (fun v => exists b, v = PyBool b) res_ ->
  forallb is_True res_ = false ->
  exists e, In (Some e) err_ /\ first_error_name err_ = Some (name e).
Proof.
  intros res_ err_ Hd. induction Hd as [|v e res_ err_ [Ht Hf] _ IH]; intros Hb Hall.
  - discriminate.
  - inversion Hb as [|? ? [b ->] Hb']; subst. simpl in Hall.
    destruct e as [e|].
    + exists e. split; [left; reflexivity|reflexivity].
    + destruct b; [|exfalso; apply Hf; reflexivity].
      simpl in Hall. destruct (IH Hb' Hall) as (e & Hin & Hfirst).
      exists e. split; [right; exact Hin|exact Hfirst].
Qed.

(** ** The alarm *)

Lemma alarm_unavailable : forall n (w : World),
  SIGNAL_AVAILABLE platform_system = false ->
  alarm_if_available platform_system n w = w.
Proof. intros n w Hs. unfold alarm_if_available. rewrite Hs. reflexivity. Qed.




(** Without [SIGALRM] no alarm is ever set, and importing the module says
    so once. *)
Lemma degraded_mode_is_announced :
  import_testing_utils "Windows"
  = (false, ["Warning: Timeout not available on Windows"])
  /\ forall system, system <> "Windows" -> import_testing_utils system = (true, []).
Proof.
  split; [reflexivity|].
  intros system Hs. unfold import_testing_utils.
  destruct (String.eqb_spec system "Windows"); [contradiction|reflexivity].
Qed.

(** An exception that [except Exception] does not catch leaves the loop
    with the alarm of the case still pending, unless the candidate changed
    it: nothing of the harness runs after the raise. *)
Lemma run_case_escape_keeps_frame :
  forall fn_name outs test modl (c : nat * json) (f f1 : Frame) (e : exn),
    run_case platform_system fn_name outs test modl c f = (Raise e, f1) ->
    case_body platform_system fn_name outs test modl (fst c) (snd c) f = (Raise e, f1)
    /\ exn_is_Exception e = false.
Proof.
  intros * Hr. unfold run_case, try_except in Hr.
  destruct (case_body platform_system fn_name outs test modl (fst c) (snd c) f)
    as [[[]|x] f2] eqn:Hb; [discriminate|].
  destruct (exn_is_Exception x) eqn:Hx.
  - rewrite case_handler_eq in Hr. discriminate.
  - injection Hr as <- <-. split; [reflexivity|exact Hx].
Qed.




(** X19. A record built from verdicts that are all booleans, with errors
    that agree with them and carry a non-empty name, has a classification
    exactly when it did not pass: the first non-null error names it. *)
Lemma verdict_record_classified :
  forall task syntax (res_ : list (pyobj V)) (err_ : list (option edesc)),
    Forall2 describes res_ err_ ->
    Forall (fun v => exists b, v = PyBool b) res_ ->
    Forall (fun e => forall d, e = Some d -> name d <> "") err_ ->
    classified (verdict_record task syntax res_ err_)
    = negb (passed (verdict_record task syntax res_ err_)).
Proof.
  intros task syntax res_ err_ Hd Hb Hn.
  unfold classified, verdict_record. simpl.
  destruct (forallb is_True res_) eqn:Hall; simpl; [reflexivity|].
  destruct (first_error_name_found Hd Hb Hall) as (e & Hin & ->).
  rewrite Forall_forall in Hn. specialize (Hn _ Hin e eq_refl).
  destruct (name e =? "") eqn:E; [|reflexivity].
  apply String.eqb_eq in E. contradiction.
Qed.

(** ** Inputs without an expected output *)



(** ** No exception of a case leaves the loop *)













End Properties.

(** * Concrete runs *)

Section Runs.

Import Toy.

(** ** The scenarios of the specification *)

(** Scenario A: [add(a, b) = a + b] on the case [[1, 2] -> 3]. *)
Example scenario_A :
  fst (evaluate_single (py := python) "Linux" (generation "A" add_src add_io) w0)
  = Ret {| task_id := JStr "A"; passed := true; syntax_valid := true;
           error := [None]; error_name := None;
           num_tests := 1; num_passed := 1 |}.
Proof. vm_compute. reflexivity. Qed.

(** Scenario B: a function that returns a wrong value. *)
Example scenario_B :
  fst (evaluate_single (py := python) "Linux" (generation "B" sub_src add_io) w0)
  = Ret {| task_id := JStr "B"; passed := false; syntax_valid := true;
           error := [Some {| name := "WrongOutput"; value := "-1" |}];
           error_name := Some "WrongOutput";
           num_tests := 1; num_passed := 0 |}.
Proof. vm_compute. reflexivity. Qed.

(** Scenario C: a script that prints 5, expected output "5". *)
Example scenario_C :
  fst (evaluate_single (py := python) "Linux" (generation "C" print5_src print5_io) w0)
  = Ret {| task_id := JStr "C"; passed := true; syntax_valid := true;
           error := [None]; error_name := None;
           num_tests := 1; num_passed := 1 |}.
Proof. vm_compute. reflexivity. Qed.

(** Scenario D: a source with a syntax error. *)
Example scenario_D :
  fst (evaluate_single (py := python) "Linux" (generation "D" broken_src add_io) w0)
  = Ret {| task_id := JStr "D"; passed := false; syntax_valid := false;
           error := [Some {| name := "SyntaxError";
                             value := "expected ':' (<string>, line 1)" |}];
           error_name := Some "SyntaxError";
           num_tests := 1; num_passed := 0 |}.
Proof. vm_compute. reflexivity. Qed.

(** Scenario E: two candidates pass their 3 cases, one passes 1 of 2. *)
Example scenario_E :
  let full := {| task_id := JStr "ok"; passed := true; syntax_valid := true;
                 error := [None; None; None]; error_name := None;
                 num_tests := 3; num_passed := 3 |} in
  let half := {| task_id := JStr "ko"; passed := false; syntax_valid := true;
                 error := [None; Some {| name := "WrongOutput"; value := "0" |}];
                 error_name := Some "WrongOutput";
                 num_tests := 2; num_passed := 1 |} in
  passed_problems [full; full; half] = 2
  /\ length [full; full; half] = 3
  /\ passed_test_cases [full; full; half] = 7
  /\ total_test_cases [full; full; half] = 8
  /\ error_breakdown [full; full; half] = [("WrongOutput", 1)]
  /\ failed_problems [full; full; half] = 1.
Proof. repeat split; reflexivity. Qed.

(** ** The tame interpreter raises nothing outside [Exception] *)


(** ** Witnesses *)

Lemma stdout_restored_witness :
  sys_stdout (snd (_run_script_and_capture_output (py := python)
                     (JStr print5_src) (ModuleObj 0) (loaded python print5_src)))
  = Console
  /\ sys_stdout (the_world (snd (run_case (py := python) "Linux" JNull
                                   (JList [JStr "5"]) (JStr print5_src) (ModuleObj 0)
                                   (0, JStr "") (start python print5_src))))
     = Console.
Proof.
  destruct (@stdout_restored_on_every_exit store object python "Linux"
              (JStr print5_src) (ModuleObj 0) (loaded python print5_src))
    as (Hcall & _ & Hcase).
  split.
  - exact Hcall.
  - exact (Hcase JNull (JList [JStr "5"]) (0, JStr "") (start python print5_src) eq_refl).
Defined.

Lemma script_mode_verdict_witness :
  run_case (py := python) "Linux" JNull (JList [JStr "5"]) (JStr wide_src)
    (ModuleObj 0) (0, JStr "") (start python wide_src)
  = (Ret tt,
     {| the_world :=
          {| sys_stdout := Console; alarm := 0;
             heap := {| buffers := ["5" ++ em_space ++ nl];
                        modules := [wide_src] |} |};
        res := [PyBool true];
        err := [None] |})
  /\ strip ("5" ++ em_space ++ nl) = "5"
  /\ run_case (py := python) "Linux" JNull (JList [JStr "6"]) (JStr print5_src)
       (ModuleObj 0) (0, JStr "") (start python print5_src)
     = (Ret tt,
        {| the_world :=
             {| sys_stdout := Console; alarm := 0;
                heap := {| buffers := ["5" ++ nl]; modules := [print5_src] |} |};
           res := [PyBool false];
           err := [Some {| name := "WrongStdout"; value := "5" ++ nl |}] |}).
Proof.
  destruct (@script_mode_verdict store object python "Linux" JNull (JList [JStr "5"])
              (JStr wide_src) (ModuleObj 0) 0 (JStr "") (start python wide_src)
              _ _ ("5" ++ em_space ++ nl) (JStr "5") eq_refl eq_refl eq_refl eq_refl)
    as (Hpass & _ & _).
  destruct (@script_mode_verdict store object python "Linux" JNull (JList [JStr "6"])
              (JStr print5_src) (ModuleObj 0) 0 (JStr "") (start python print5_src)
              _ _ ("5" ++ nl) (JStr "6") eq_refl eq_refl eq_refl eq_refl)
    as (Hfail & _ & _).
  split; [exact Hpass|]. split; [reflexivity|exact Hfail].
Defined.




Lemma passed_witness :
  (exists r,
      evaluate_single (py := python) "Linux" (generation "A" add_src add_io) w0
      = (Ret r, loaded python add_src)
      /\ (passed r = true <-> Forall (fun v => v = PyBool true) [@PyBool object true])
      /\ num_tests r = 1 /\ num_passed r = 1)
  /\ (exists r,
      evaluate_single (py := python) "Linux" (generation "E" add_src add_none_io) w0
      = (Ret r, loaded python add_src)
      /\ error r = [] /\ passed r = true /\ num_tests r = 0 /\ num_passed r = 0)
  /\ (exists r,
      evaluate_single (py := python) "Linux" (generation "D" broken_src add_io) w0
      = (Ret r, loaded python broken_src)
      /\ passed r = false).
Proof.
  split; [|split].
  - destruct (@passed_iff_every_verdict_is_True store object python "Linux"
                (fields "A" add_src add_io) w0) as (Hany & _ & _).
    exact (Hany [PyBool true] [None] (loaded python add_src) eq_refl).
  - destruct (@passed_iff_every_verdict_is_True store object python "Linux"
                (fields "E" add_src add_none_io) w0) as (_ & Hnone & _).
    exact (Hnone (spec_doc "add" [] []) (JList []) (ModuleObj 0)
             (loaded python add_src) eq_refl eq_refl eq_refl eq_refl).
  - destruct (@passed_iff_every_verdict_is_True store object python "Linux"
                (fields "D" broken_src add_io) w0) as (_ & _ & Hfailed).
    exact (Hfailed (spec_doc "add" [JList [JInt 1; JInt 2]] [JInt 3])
             missing_colon (message missing_colon)
             (loaded python broken_src) (loaded python broken_src)
             eq_refl eq_refl eq_refl eq_refl eq_refl).
Defined.



(** ** Counterexamples *)






(** ** Runs on which the code departs from the specification *)

(** C3. The function returns [10 ** 5000] where 0 is expected.  The
    comparison is [False] and is appended as the verdict; [str(got)] then
    raises [ValueError] (more than 4300 digits), so the handler appends a
    second verdict: one case, two verdicts, one error, and its name is not
    [WrongOutput]. *)
Theorem mismatch_with_unprintable_value :
  run_test (py := python) "Linux" power_io (JStr power_src) w0
  = (Ret ([PyBool false; PyBool false],
          [Some {| name := "ValueError";
                   value := exn_format_exc
                              (python_error "ValueError" digits_message) |}]),
     loaded python power_src).
Proof. vm_compute. reflexivity. Qed.

(** C8. The function returns [numpy.int64(4)] where 4 is expected.  The
    comparison returns [numpy.bool_(True)]: truthy, so the error is [None];
    not the object [True], so [passed] is [False].  The record has no
    classification, and the histogram of this one failing candidate is
    empty. *)
Theorem failing_candidate_without_classification :
  let r := {| task_id := JStr "N"; passed := false; syntax_valid := true;
              error := [None]; error_name := None;
              num_tests := 1; num_passed := 0 |} in
  evaluate_single (py := python) "Linux" (generation "N" double_src double_io) w0
  = (Ret r, loaded python double_src)
  /\ error_breakdown [r] = []
  /\ sum_values (error_breakdown [r]) = 0
  /\ failed_problems [r] = 1.
Proof. vm_compute. repeat split; reflexivity. Qed.

End Runs.

(** * Further properties of the code *)

Section Extras.

Context {H V : Type} {py : Python H V}.

Variable platform_system : string.

#[local] Abbreviation World := (world H V).
#[local] Abbreviation Frame := (@frame H V).

(** ** Script mode never reads the inputs *)

Lemma bind_same : forall {S A B} (m : M S A) (k k' : A -> M S B) s,
  (forall a s', k a s' = k' a s') -> bind m k s = bind m k' s.
Proof.
  intros S A B m k k' s Hk. unfold bind.
  destruct (m s) as [[a|e] s']; [apply Hk|reflexivity].
Qed.

Lemma script_loop_ignores_inputs :
  forall fn_name outs test modl (cases cases' : list json) (k : nat) (f : Frame),
    truthy fn_name = false ->
    length cases = length cases' ->
    for_each (enumerate_from k cases) (run_case platform_system fn_name outs test modl) f
    = for_each (enumerate_from k cases') (run_case platform_system fn_name outs test modl) f.
Proof.
  intros fn_name outs test modl cases.
  induction cases as [|c cases IH]; intros [|c' cases'] k f Hmode Hlen;
    try discriminate; [reflexivity|].
  simpl. unfold bind.
  assert (Hsame : run_case platform_system fn_name outs test modl (k, c) f
                  = run_case platform_system fn_name outs test modl (k, c') f).
  { unfold run_case, case_body. rewrite Hmode. reflexivity. }
  rewrite Hsame.
  destruct (run_case platform_system fn_name outs test modl (k, c') f) as [[[]|e] f1];
    [|reflexivity].
  apply IH; [exact Hmode|]. simpl in Hlen. congruence.
Qed.

(** X2. In script mode the inputs of the test specification are only
    counted: two specifications without entry point, with the same outputs
    and as many inputs, give the same run of [run_test], whatever the inputs
    are.  The input of a case is never handed to the script. *)
Theorem script_mode_ignores_inputs :
  forall text text' test io io' ins ins' outs fn_name cases cases' (w : World),
    json_loads text = Ret io ->
    json_loads text' = Ret io' ->
    py_get io "inputs" (JList []) = Ret ins ->
    py_get io' "inputs" (JList []) = Ret ins' ->
    py_get io "outputs" (JList []) = Ret outs ->
    py_get io' "outputs" (JList []) = Ret outs ->
    py_get io "fn_name" JNull = Ret fn_name ->
    py_get io' "fn_name" JNull = Ret fn_name ->
    truthy fn_name = false ->
    py_iter ins = Ret cases ->
    py_iter ins' = Ret cases' ->
    length cases = length cases' ->
    run_test platform_system text test w = run_test platform_system text' test w.
Proof.
  intros * Hio Hio' Hins Hins' Houts Houts' Hfn Hfn' Hmode Hcases Hcases' Hlen.
  unfold run_test.
  rewrite !bind_pure, Hio, Hio'. cbv beta iota.
  rewrite !bind_pure, Hins, Hins'. cbn [at_line].
  rewrite !bind_pure, Houts, Houts'. cbn [at_line].
  rewrite !bind_pure, Hfn, Hfn'. cbn [at_line].
  apply bind_same. intros [modl|early] w1; [|reflexivity].
  rewrite !bind_pure, Hcases, Hcases'. cbn [at_line].
  unfold with_lists, enumerate.
  rewrite (script_loop_ignores_inputs fn_name outs test modl cases cases' 0
             {| the_world := w1; res := []; err := [] |} Hmode Hlen).
  reflexivity.
Qed.

(** ** The alarm after a run *)



(** ** Test specifications the harness cannot read *)

Lemma run_test_undecodable :
  forall text test (e : exn) (w : World),
    json_loads text = Raise e ->
    run_test platform_system text test w = (Raise e, w).
Proof.
  intros * Hio. unfold run_test. rewrite bind_pure, Hio. reflexivity.
Qed.

Lemma run_test_not_a_dict :
  forall text test io (w : World),
    json_loads text = Ret io ->
    isinstance_dict io = false ->
    run_test platform_system text test w
    = (Raise (raised "testing_utils.py" 40
                (builtin_error "AttributeError"
                   ("'" ++ type_name io ++ "' object has no attribute 'get'"))), w).
Proof.
  intros * Hio Hd. unfold run_test. rewrite bind_pure, Hio. cbv beta iota.
  rewrite bind_pure. destruct io; try discriminate; reflexivity.
Qed.

(** X4. When the [input_output] of a generation does not decode, or
    decodes to something that is not a dict, [run_test] raises before it
    touches the candidate: the interpreter state is the one it started
    from.  [evaluate_single] turns an exception of a class deriving from
    [Exception] (as [JSONDecodeError] and [AttributeError] are) into the
    [EvaluationError] record: not passed, no test counted, and the message
    of the exception as the value of its one error. *)
Theorem unreadable_spec_is_an_EvaluationError :
  forall (kv : list (string * json)) (w : World),
    (forall e,
        json_loads (generation_io kv) = Raise e ->
        run_test platform_system (generation_io kv) (generation_code kv) w
        = (Raise e, w)
        /\ (exn_is_Exception e = true ->
            evaluate_single platform_system (JDict kv) w
            = (Ret {| task_id := generation_task_id kv;
                      passed := false;
                      syntax_valid := check_syntax_valid (generation_code kv);
                      error := [Some {| name := "EvaluationError";
                                        value := message e |}];
                      error_name := Some "EvaluationError";
                      num_tests := 0;
                      num_passed := 0 |}, w)))
    /\ (forall io,
          json_loads (generation_io kv) = Ret io ->
          isinstance_dict io = false ->
          evaluate_single platform_system (JDict kv) w
          = (Ret {| task_id := generation_task_id kv;
                    passed := false;
                    syntax_valid := check_syntax_valid (generation_code kv);
                    error := [Some {| name := "EvaluationError";
                                      value := "'" ++ type_name io
                                               ++ "' object has no attribute 'get'" |}];
                    error_name := Some "EvaluationError";
                    num_tests := 0;
                    num_passed := 0 |}, w)).
Proof.
  intros kv w. split.
  - intros e Hio.
    pose proof (@run_test_undecodable (generation_io kv) (generation_code kv) e w Hio)
      as Hrun.
    split; [exact Hrun|]. intros He.
    rewrite evaluate_single_eq, Hrun, He.
    pose proof (json_loads_str _ Hio) as Hs.
    unfold py_str_exn, message.
    destruct (exn_str e) as [s|]; [reflexivity|exfalso; apply Hs; reflexivity].
  - intros io Hio Hd.
    rewrite evaluate_single_eq.
    rewrite (@run_test_not_a_dict (generation_io kv) (generation_code kv) io w Hio Hd).
    reflexivity.
Qed.


(** ** The records of [evaluate_single] *)

Lemma count_True_le : forall (l : list (pyobj V)),
  length (filter is_True l) <= length l.
Proof. intros l. apply filter_length_le. Qed.

Lemma count_True_all : forall (l : list (pyobj V)),
  length (filter is_True l) = length l <-> forallb is_True l = true.
Proof.
  induction l as [|v l IH]; simpl; [split; reflexivity|].
  pose proof (count_True_le l) as Hle.
  destruct (is_True v); simpl.
  - rewrite <- IH. split; intros E; congruence.
  - split; [intros E; rewrite E in Hle; exfalso; apply (Nat.nle_succ_diag_l _ Hle)
           |discriminate].
Qed.

Lemma evaluate_single_needs_a_dict :
  forall (g : json) (w : World),
    isinstance_dict g = false ->
    evaluate_single platform_system g w
    = (Raise (raised "eval.py" 20
                (builtin_error "AttributeError"
                   ("'" ++ type_name g ++ "' object has no attribute 'get'"))), w).
Proof.
  intros g w Hg. unfold evaluate_single. rewrite bind_pure.
  destruct g; try discriminate; reflexivity.
Qed.

(** X6. Every record [evaluate_single] returns comes from a generation that
    is a dict, and satisfies: [num_passed <= num_tests]; [passed] holds
    exactly when all counted tests passed and the record has no
    [error_name] (so a passing record is never counted in the histogram);
    and [task_id] and [syntax_valid] are computed from the generation alone,
    the same whether the run produced verdicts, the sentinel or an
    [EvaluationError]. *)
Theorem record_invariant :
  forall (g : json) (r : result) (w w' : World),
    evaluate_single platform_system g w = (Ret r, w') ->
    num_passed r <= num_tests r
    /\ (passed r = true <-> num_passed r = num_tests r /\ error_name r = None)
    /\ (passed r = true -> classified r = false)
    /\ exists kv,
         g = JDict kv
         /\ task_id r = generation_task_id kv
         /\ syntax_valid r = check_syntax_valid (generation_code kv).
Proof.
  intros g r w w' Hev.
  destruct (isinstance_dict g) eqn:Hg.
  2:{ rewrite (@evaluate_single_needs_a_dict g w Hg) in Hev. discriminate. }
  destruct g as [| | | | | |kv]; try discriminate.
  rewrite evaluate_single_eq in Hev.
  destruct (run_test platform_system (generation_io kv) (generation_code kv) w)
    as [[[res_ err_]|e] w1].
  - injection Hev as <- <-. unfold verdict_record, classified; simpl.
    pose proof (count_True_le res_) as Hle.
    pose proof (count_True_all res_) as Hall.
    destruct (forallb is_True res_); simpl.
    + repeat split; try reflexivity; try (apply Hall; reflexivity); try exact Hle.
      exists kv. repeat split.
    + repeat split; try exact Hle; try discriminate.
      * intros [Hc _]. apply Hall in Hc. discriminate.
      * exists kv. repeat split.
  - destruct (exn_is_Exception e); [|discriminate].
    destruct (py_str_exn e w1) as [[s|x] w2]; [|discriminate].
    injection Hev as <- <-. unfold evaluation_error, classified; simpl.
    repeat split; try discriminate; try apply le_n.
    + intros [_ Hn]. discriminate.
    + exists kv. repeat split.
Qed.

(** X7. Once it has a dict, [evaluate_single] raises in two ways only:
    [run_test] raised an exception that [except Exception] does not catch,
    and it goes through; or [run_test] raised one that the handler caught,
    whose rendering runs code of the candidate, and [str(e)] on line 43
    raised in its turn.  An exception deriving from [Exception] so leaves
    [evaluate_single] only from that [str(e)].  A generation that is not a
    dict (a JSON list, a number) makes it raise [AttributeError] at the
    first [.get], before anything runs. *)
Theorem what_evaluate_single_raises :
  (forall (kv : list (string * json)) (e : exn) (w w' : World),
      evaluate_single platform_system (JDict kv) w = (Raise e, w') ->
      (exn_is_Exception e = false
       /\ run_test platform_system (generation_io kv) (generation_code kv) w
          = (Raise e, w'))
      \/ (exists x w1,
            run_test platform_system (generation_io kv) (generation_code kv) w
            = (Raise x, w1)
            /\ exn_is_Exception x = true
            /\ exn_str x = None
            /\ str_exn x w1 = (Raise e, w')))
  /\ (forall (g : json) (w : World),
        isinstance_dict g = false ->
        exists e,
          evaluate_single platform_system g w = (Raise e, w)
          /\ exn_name e = "AttributeError").
Proof.
  split.
  - intros kv e w w' Hev. rewrite evaluate_single_eq in Hev.
    destruct (run_test platform_system (generation_io kv) (generation_code kv) w)
      as [[[res_ err_]|x] w1]; [discriminate|].
    destruct (exn_is_Exception x) eqn:Hx.
    + right. exists x, w1. unfold py_str_exn in Hev.
      destruct (exn_str x) as [s|] eqn:Hs; [discriminate|].
      destruct (str_exn x w1) as [[s|y] w2] eqn:Hy; [discriminate|].
      injection Hev as <- <-. repeat split; assumption.
    + left. injection Hev as <- <-. split; [exact Hx|reflexivity].
  - intros g w Hg. eexists. split; [apply evaluate_single_needs_a_dict; exact Hg|].
    reflexivity.
Qed.

(** ** The aggregation of [evaluate] *)

Lemma record_counts :
  forall (g : json) (r : result) (w w' : World),
    evaluate_single platform_system g w = (Ret r, w') ->
    num_passed r <= num_tests r
    /\ (passed r = true -> num_passed r = num_tests r).
Proof.
  intros g r w w' Hev.
  destruct (isinstance_dict g) eqn:Hg.
  2:{ rewrite (@evaluate_single_needs_a_dict g w Hg) in Hev. discriminate. }
  destruct g as [| | | | | |kv]; try discriminate.
  rewrite evaluate_single_eq in Hev.
  destruct (run_test platform_system (generation_io kv) (generation_code kv) w)
    as [[[res_ err_]|e] w1].
  - injection Hev as <- <-. simpl. split; [apply count_True_le|].
    intros Hall. apply count_True_all. exact Hall.
  - destruct (exn_is_Exception e); [|discriminate].
    destruct (py_str_exn e w1) as [[s|x] w2]; [|discriminate].
    injection Hev as <- <-. simpl. split; [apply le_n|discriminate].
Qed.

(** X8. Over records that [evaluate_single] returned, the counts behind
    the rates of [evaluate] are in range: the passed problems are at most
    the problems, passed and failed problems add up to the total, and the
    passed test cases are at most the test cases (so [pass_at_1] and
    [test_case_accuracy] divide a number by one at least as large); when
    every problem passed, every counted test case passed. *)
Theorem aggregate_counts_in_range :
  forall results : list result,
    Forall (fun r => exists g (w w' : World),
                       evaluate_single platform_system g w = (Ret r, w')) results ->
    passed_problems results <= length results
    /\ passed_problems results + failed_problems results = length results
    /\ passed_test_cases results <= total_test_cases results
    /\ (forallb passed results = true ->
        passed_test_cases results = total_test_cases results).
Proof.
  intros results Hall.
  assert (Hp : passed_problems results <= length results)
    by apply filter_length_le.
  split; [exact Hp|]. split.
  { unfold failed_problems. rewrite Nat.add_comm. apply Nat.sub_add. exact Hp. }
  unfold passed_test_cases, total_test_cases.
  induction Hall as [|r results (g & w & w' & Hev) _ IH]; simpl.
  - split; [apply le_n|reflexivity].
  - destruct (record_counts g w Hev) as [Hle Heq].
    assert (Hp' : passed_problems results <= length results)
      by apply filter_length_le.
    destruct (IH Hp') as [IHle IHeq]. split.
    + apply Nat.add_le_mono; assumption.
    + intros Hb. apply andb_prop in Hb as [Hr Hrest].
      rewrite (Heq Hr), (IHeq Hrest). reflexivity.
Qed.

End Extras.

(** ** The error histogram, name by name *)

Lemma dict_lookup_incr : forall (n k : string) (errors : list (string * nat)),
  dict_lookup n (dict_incr k errors)
  = if n =? k
    then Some (match dict_lookup k errors with Some c => c + 1 | None => 1 end)
    else dict_lookup n errors.
Proof.
  intros n k errors. induction errors as [|[k' c] rest IH]; simpl.
  - destruct (n =? k); reflexivity.
  - destruct (String.eqb_spec k k') as [->|Hk]; simpl.
    + destruct (n =? k'); reflexivity.
    + rewrite IH. destruct (String.eqb_spec n k') as [->|Hn].
      * destruct (String.eqb_spec k' k) as [->|_]; [contradiction|reflexivity].
      * reflexivity.
Qed.

Lemma keys_dict_incr : forall (x k : string) (errors : list (string * nat)),
  In x (map fst (dict_incr k errors)) <-> x = k \/ In x (map fst errors).
Proof.
  intros x k errors. induction errors as [|[k' c] rest IH]; simpl.
  - split; [intros [<-|[]]; left; reflexivity|intros [->|[]]; left; reflexivity].
  - destruct (String.eqb_spec k k') as [->|Hk]; simpl.
    + split; [intros [<-|Hin]; [right; left; reflexivity|right; right; exact Hin]
             |intros [->|[<-|Hin]]; [left; reflexivity|left; reflexivity|right; exact Hin]].
    + rewrite IH. split.
      * intros [<-|[->|Hin]]; [right; left; reflexivity|left; reflexivity
                               |right; right; exact Hin].
      * intros [->|[<-|Hin]]; [right; left; reflexivity|left; reflexivity
                               |right; right; exact Hin].
Qed.

Lemma NoDup_dict_incr : forall (k : string) (errors : list (string * nat)),
  NoDup (map fst errors) -> NoDup (map fst (dict_incr k errors)).
Proof.
  intros k errors. induction errors as [|[k' c] rest IH]; simpl; intros Hnd.
  - constructor; [intros []|constructor].
  - inversion Hnd as [|? ? Hnotin Hrest]; subst.
    destruct (String.eqb_spec k k') as [->|Hk]; simpl.
    + constructor; assumption.
    + constructor; [|apply IH; exact Hrest].
      rewrite keys_dict_incr. intros [->|Hin]; [apply Hk; reflexivity|contradiction].
Qed.

Lemma histogram_fold :
  forall (results : list result) (errors : list (string * nat)) (n : string),
    let hits := length (filter (fun r => match error_name r with
                                         | Some m => m =? n
                                         | None => false
                                         end) results) in
    (n <> "" ->
     dict_lookup n
       (fold_left
          (fun errors r =>
             match error_name r with
             | Some m => if negb (m =? "") then dict_incr m errors else errors
             | None => errors
             end)
          results errors)
     = match dict_lookup n errors with
       | Some c => Some (c + hits)
       | None => if (hits =? 0)%nat then None else Some hits
       end)
    /\ (NoDup (map fst errors) -> ~ In "" (map fst errors) ->
        NoDup (map fst
                 (fold_left
                    (fun errors r =>
                       match error_name r with
                       | Some m => if negb (m =? "") then dict_incr m errors else errors
                       | None => errors
                       end)
                    results errors))
        /\ ~ In "" (map fst
                      (fold_left
                         (fun errors r =>
                            match error_name r with
                            | Some m => if negb (m =? "") then dict_incr m errors
                                        else errors
                            | None => errors
                            end)
                         results errors))).
Proof.
  induction results as [|r results IH]; intros errors n; simpl.
  - split.
    + intros _. destruct (dict_lookup n errors); [rewrite Nat.add_0_r|]; reflexivity.
    + intros Hnd Hno. split; assumption.
  - destruct (error_name r) as [m|]; [|apply IH].
    destruct (String.eqb_spec m "") as [->|Hm]; simpl.
    + split; [|exact (proj2 (IH errors n))].
      intros Hn. destruct n as [|a n']; [contradiction|].
      cbv iota. exact (proj1 (IH errors (String a n')) Hn).
    + destruct (IH (dict_incr m errors) n) as [IHl IHk]. split.
      * intros Hn. rewrite (IHl Hn), dict_lookup_incr.
        destruct (String.eqb_spec m n) as [->|Hmn].
        -- rewrite String.eqb_refl. simpl.
           destruct (dict_lookup n errors) as [c|]; [|reflexivity].
           f_equal. rewrite <- Nat.add_assoc. reflexivity.
        -- destruct (String.eqb_spec n m) as [->|_]; [contradiction|reflexivity].
      * intros Hnd Hno. apply IHk; [apply NoDup_dict_incr; exact Hnd|].
        rewrite keys_dict_incr. intros [E|Hin]; [apply Hm; symmetry; exact E|contradiction].
Qed.

(** X9. The histogram holds, under each name, the number of records whose
    [error_name] is that name, and holds no entry at all for a name that no
    record carries, nor for the empty name; its keys are pairwise
    distinct. *)
Theorem histogram_counts_each_name :
  forall (results : list result) (n : string),
    let hits := length (filter (fun r => match error_name r with
                                         | Some m => m =? n
                                         | None => false
                                         end) results) in
    dict_lookup n (error_breakdown results)
    = (if (n =? "") || (hits =? 0)%nat then None else Some hits)
    /\ NoDup (map fst (error_breakdown results)).
Proof.
  intros results n hits. unfold error_breakdown.
  destruct (histogram_fold results [] n) as [Hl Hk].
  destruct (Hk (NoDup_nil _) (fun x => x)) as [Hnd Hno].
  split; [|exact Hnd].
  destruct (String.eqb_spec n "") as [->|Hn]; simpl.
  - destruct (dict_lookup "" _) as [c|] eqn:E; [|reflexivity].
    exfalso. apply Hno. clear - E.
    induction (fold_left _ results []) as [|[k c'] l IH]; simpl in *; [discriminate|].
    destruct k as [|a k']; [left; reflexivity|right; apply IH; exact E].
  - rewrite (Hl Hn). reflexivity.
Qed.

(** ** The worker count *)

(** X10. The pool of [evaluate] has at least one process and at most
    [max(1, cpu_count() - 1)], whatever [workers] is asked for (zero and
    negative numbers included); a request within that range is granted as it
    is; without a request the pool has at most 4 processes; on a machine
    with one or two processors it has exactly one. *)
Theorem num_processes_in_range :
  forall (cpu_count : Z) (workers : option Z),
    (1 <= num_processes cpu_count workers <= Z.max 1 (cpu_count - 1))%Z
    /\ (forall n, workers = Some n ->
                  (1 <= n <= Z.max 1 (cpu_count - 1))%Z ->
                  num_processes cpu_count workers = n)
    /\ (workers = None ->
        num_processes cpu_count workers = Z.min 4 (Z.max 1 (cpu_count - 1)))
    /\ ((cpu_count <= 2)%Z -> num_processes cpu_count workers = 1%Z).
Proof.
  intros cpu_count workers. unfold num_processes.
  repeat split.
  - destruct workers; lia.
  - destruct workers; lia.
  - intros n -> Hn. lia.
  - intros ->. lia.
  - intros Hc. destruct workers; lia.
Qed.

Section Reading.

Context {H V : Type} {py : Python H V}.

(** ** [validate_io] *)

(** X11. [validate_io] accepts exactly the dicts that hold a list under
    ["inputs"], a list under ["outputs"], and as many of one as of the
    other, and its message is then ["Valid"].  On a specification it
    accepts, [run_test] finds its cases without raising and every case has
    an expected output: no [IndexError] comes from reading one. *)
Theorem validate_io_accepts :
  forall io : json,
    (fst (validate_io io) = true <->
     exists kv ins outs,
       io = JDict kv
       /\ assoc "inputs" kv = Some (JList ins)
       /\ assoc "outputs" kv = Some (JList outs)
       /\ length ins = length outs)
    /\ (fst (validate_io io) = true ->
        snd (validate_io io) = "Valid"
        /\ exists ins outs,
             py_get io "inputs" (JList []) = Ret (JList ins)
             /\ py_get io "outputs" (JList []) = Ret (JList outs)
             /\ py_iter (JList ins) = Ret ins
             /\ forall i, i < length ins ->
                          exists expected, py_index (JList outs) i = Ret expected).
Proof.
  intros io.
  assert (Hiff :
    fst (validate_io io) = true <->
    exists kv ins outs,
      io = JDict kv
      /\ assoc "inputs" kv = Some (JList ins)
      /\ assoc "outputs" kv = Some (JList outs)
      /\ length ins = length outs).
  { split.
    - unfold validate_io. destruct io as [| | | | | |kv]; try discriminate.
      destruct (assoc "inputs" kv) as [i|] eqn:Ei; [|discriminate].
      destruct (assoc "outputs" kv) as [o|] eqn:Eo; [|discriminate].
      destruct i as [| | | | |ins|]; try discriminate;
        destruct o as [| | | | |outs|]; try discriminate.
      destruct (Nat.eqb_spec (length ins) (length outs)) as [E|E]; [|discriminate].
      intros _. exists kv, ins, outs. repeat split; assumption.
    - intros (kv & ins & outs & -> & Hi & Ho & Hl).
      unfold validate_io. rewrite Hi, Ho, Hl, Nat.eqb_refl. reflexivity. }
  split; [exact Hiff|].
  intros Hok. destruct (proj1 Hiff Hok) as (kv & ins & outs & -> & Hi & Ho & Hl).
  split.
  - unfold validate_io. rewrite Hi, Ho, Hl, Nat.eqb_refl. reflexivity.
  - exists ins, outs. simpl. rewrite Hi, Ho. repeat split.
    intros i Hlt. rewrite Hl in Hlt.
    destruct (nth_error outs i) as [expected|] eqn:E.
    + exists expected. reflexivity.
    + apply nth_error_None in E. exfalso. apply (Nat.lt_irrefl i).
      eapply Nat.lt_le_trans; eassumption.
Qed.

(** ** The source text taken from a generation *)

(** X12. The source handed to [run_test] is the field itself when it is a
    str and the first element when it is a non-empty list; every falsy field
    (missing, [null], [""], [[]], [0], [{}]) gives the empty source; and the
    only way to a source that is not a str is a list whose first element is
    not one. *)
Theorem code_of_cases :
  forall field : json,
    (truthy field = false -> code_of field = JStr "")
    /\ (isinstance_str (code_of field) = false ->
        exists first rest,
          field = JList (first :: rest)
          /\ code_of field = first
          /\ isinstance_str first = false)
    /\ (forall s, field = JStr s -> code_of field = field)
    /\ (forall first rest, field = JList (first :: rest) -> code_of field = first).
Proof.
  intros field. repeat split.
  - intros Hf. destruct field as [|b|z|f|s|l|d]; cbn [code_of]; try rewrite Hf;
      try reflexivity.
    + destruct s; [reflexivity|discriminate].
    + destruct l; [reflexivity|discriminate].
  - intros Hs.
    destruct field as [|b|z|f|s|l|d]; cbn [code_of] in Hs;
      try (destruct (truthy _); simpl in Hs; discriminate);
      try (simpl in Hs; discriminate).
    destruct l as [|first rest]; [simpl in Hs; discriminate|].
    exists first, rest. repeat split. exact Hs.
  - intros s ->. reflexivity.
  - intros first rest ->. reflexivity.
Qed.

(** ** Reading the files, line by line *)

(** X13. The loop of [main] accounts for every line: when it returns, each
    line was blank, gave a warning, or gave a generation, and the
    generations are exactly the documents of the non-blank lines that
    decode.  It only raises what [json.loads] raised that is not a
    [JSONDecodeError]. *)
Theorem load_generations_accounts_for_every_line :
  forall (lines : list string) (line_num : nat),
    match load_generations line_num lines with
    | (Ret gens, printed) =>
        length gens + length printed
        + length (filter (fun line => strip line =? "") lines)
        = length lines
        /\ (forall g, In g gens <->
                      exists line, In line lines
                                   /\ strip line <> ""
                                   /\ json_loads (strip line) = Ret g)
    | (Raise e, _) =>
        is_JSONDecodeError e = false
        /\ exists line, In line lines /\ json_loads (strip line) = Raise e
    end.
Proof.
  induction lines as [|line rest IH]; intros line_num.
  - simpl. split; [reflexivity|].
    intros g. split; [intros []|intros (line & [] & _)].
  - cbn [load_generations filter]. specialize (IH (S line_num)).
    destruct (String.eqb_spec (strip line) "") as [Eb|Eb].
    + destruct (load_generations (S line_num) rest) as [[gens|e] printed].
      * destruct IH as [Hcount Hin]. split.
        -- cbn [length]. rewrite Nat.add_succ_r. f_equal. exact Hcount.
        -- intros g. rewrite Hin. split.
           ++ intros (l & Hl & Hne & Hd). exists l. split; [right; exact Hl|].
              split; assumption.
           ++ intros (l & [<-|Hl] & Hne & Hd); [contradiction|].
              exists l. split; [exact Hl|]. split; assumption.
      * destruct IH as [He (l & Hl & Hd)]. split; [exact He|].
        exists l. split; [right; exact Hl|exact Hd].
    + destruct (json_loads (strip line)) as [g0|e0] eqn:Ed.
      * destruct (load_generations (S line_num) rest) as [[gens|e] printed].
        -- destruct IH as [Hcount Hin]. split.
           ++ cbn [length]. simpl. f_equal. exact Hcount.
           ++ intros g. simpl. rewrite Hin. split.
              ** intros [<-|(l & Hl & Hne & Hd)].
                 --- exists line. split; [left; reflexivity|]. split; assumption.
                 --- exists l. split; [right; exact Hl|]. split; assumption.
              ** intros (l & [<-|Hl] & Hne & Hd).
                 --- left. congruence.
                 --- right. exists l. split; [exact Hl|]. split; assumption.
        -- destruct IH as [He (l & Hl & Hd)]. split; [exact He|].
           exists l. split; [right; exact Hl|exact Hd].
      * destruct (is_JSONDecodeError e0) eqn:Ej.
        -- destruct (load_generations (S line_num) rest) as [[gens|e] printed].
           ++ destruct IH as [Hcount Hin]. split.
              ** cbn [length]. rewrite Nat.add_succ_r. simpl. f_equal. exact Hcount.
              ** intros g. rewrite Hin. split.
                 --- intros (l & Hl & Hne & Hd). exists l.
                     split; [right; exact Hl|]. split; assumption.
                 --- intros (l & [<-|Hl] & Hne & Hd); [congruence|].
                     exists l. split; [exact Hl|]. split; assumption.
           ++ destruct IH as [He (l & Hl & Hd)]. split; [exact He|].
              exists l. split; [right; exact Hl|exact Hd].
        -- split; [exact Ej|]. exists line. split; [left; reflexivity|exact Ed].
Qed.

Lemma read_json_of_loads_all : forall (path : string) (lines : list string) docs,
  loads_all lines = Ret docs -> read_json path lines = (Ret docs, []).
Proof.
  intros path lines. induction lines as [|line rest IH]; intros docs; simpl.
  - intros [= <-]. reflexivity.
  - destruct (json_loads line) as [d|e]; [|discriminate].
    destruct (loads_all rest) as [ds|e]; [|discriminate].
    intros [= <-]. rewrite (IH ds eq_refl). reflexivity.
Qed.

(** X14. [read_json] loses no line silently: when it returns, the problems
    and the warnings are as many as the lines (a blank line is a malformed
    one here), and it only raises what [json.loads] raised that is not a
    [JSONDecodeError].  Where the unguarded reading of generation.py
    returns, [read_json] returns the same problems and prints nothing. *)
Theorem read_json_accounts_for_every_line :
  forall (path : string) (lines : list string),
    match read_json path lines with
    | (Ret problems, printed) =>
        length problems + length printed = length lines
        /\ Forall (fun line => line = "Warning: Skipping malformed line in " ++ path)
                  printed
    | (Raise e, _) => is_JSONDecodeError e = false
    end
    /\ (forall docs, loads_all lines = Ret docs ->
                     read_json path lines = (Ret docs, [])).
Proof.
  intros path lines. split; [|intros docs; apply read_json_of_loads_all].
  induction lines as [|line rest IH]; cbn [read_json].
  - split; [reflexivity|constructor].
  - destruct (json_loads line) as [d|e0].
    + destruct (read_json path rest) as [[problems|e] printed]; [|exact IH].
      destruct IH as [Hcount Hall]. split; [|exact Hall].
      simpl. f_equal. exact Hcount.
    + destruct (is_JSONDecodeError e0) eqn:Ej; [|exact Ej].
      destruct (read_json path rest) as [[problems|e] printed]; [|exact IH].
      destruct IH as [Hcount Hall]. split; [|constructor; [reflexivity|exact Hall]].
      cbn [length]. rewrite Nat.add_succ_r. f_equal. exact Hcount.
Qed.

End Reading.

Section Prompt.

Context {H V : Type} {py : Python H V}.

(** ** [generate_prompt] *)

Lemma string_app_assoc : forall a b c : string, (a ++ b) ++ c = a ++ (b ++ c).
Proof.
  induction a as [|x a IH]; intros b c; simpl; [reflexivity|].
  rewrite IH. reflexivity.
Qed.

Lemma string_app_nil_r : forall a : string, a ++ "" = a.
Proof.
  induction a as [|x a IH]; simpl; [reflexivity|]. rewrite IH. reflexivity.
Qed.

Lemma generate_prompt_of_dict :
  forall (kv : list (string * json)) (s : string),
    (assoc "question" kv = None /\ s = ""
     \/ assoc "question" kv = Some (JStr s)) ->
    exists middle,
      generate_prompt (JDict kv)
      = Ret ((prompt_header ++ "QUESTION:" ++ nl) ++ (strip s ++ nl ++ nl ++ middle)
             ++ prompt_footer).
Proof.
  intros kv s Hq. unfold generate_prompt. cbn [py_get at_line].
  assert (Hstrip :
    py_strip (match assoc "question" kv with Some v => v | None => JStr "" end)
    = Ret (strip s)).
  { destruct Hq as [ [-> ->] | -> ]; reflexivity. }
  rewrite Hstrip. cbn [at_line].
  set (starter := match assoc "starter_code" kv with Some v => v | None => JStr "" end).
  set (fn_name := match assoc "fn_name" kv with Some v => v | None => JNull end).
  destruct (truthy starter); destruct (truthy fn_name).
  - exists (("Starter code:" ++ nl ++ format_value starter ++ nl ++ nl)
            ++ "Implement the function `" ++ format_value fn_name
            ++ "` exactly." ++ nl ++ nl).
    rewrite !string_app_assoc. reflexivity.
  - exists ("Starter code:" ++ nl ++ format_value starter ++ nl ++ nl).
    rewrite !string_app_assoc. reflexivity.
  - exists ("Implement the function `" ++ format_value fn_name
            ++ "` exactly." ++ nl ++ nl).
    rewrite !string_app_assoc. reflexivity.
  - exists "". rewrite !string_app_assoc. reflexivity.
Qed.

Lemma prefix_of_append : forall a b : string, String.prefix a (a ++ b) = true.
Proof.
  induction a as [|x a IH]; intros b; simpl; [destruct b; reflexivity|].
  destruct (ascii_dec x x) as [_|Hx]; [apply IH|exfalso; apply Hx; reflexivity].
Qed.

(** X15. [generate_prompt] returns a prompt exactly for a dict whose
    ["question"], when present, is a str (a missing question counts as the
    empty one; [null] or a number makes [.strip()] raise); any exception it
    raises is an [AttributeError].  Every prompt starts with the three lines
    of instructions and the [QUESTION:] line, and ends with the four lines
    that show the two markers. *)
Theorem generate_prompt_returns :
  forall problem : json,
    ((exists p, generate_prompt problem = Ret p) <->
     exists kv, problem = JDict kv
                /\ forall q, assoc "question" kv = Some q -> isinstance_str q = true)
    /\ (forall p, generate_prompt problem = Ret p ->
                  String.prefix (prompt_header ++ "QUESTION:" ++ nl) p = true
                  /\ exists body, p = body ++ prompt_footer)
    /\ (forall e, generate_prompt problem = Raise e -> exn_name e = "AttributeError").
Proof.
  intros problem.
  assert (Hdict : forall kv,
    (forall q, assoc "question" kv = Some q -> isinstance_str q = true) ->
    exists s middle,
      generate_prompt (JDict kv)
      = Ret ((prompt_header ++ "QUESTION:" ++ nl) ++ (strip s ++ nl ++ nl ++ middle)
             ++ prompt_footer)).
  { intros kv Hq. destruct (assoc "question" kv) as [q|] eqn:E.
    - specialize (Hq q eq_refl). destruct q as [| | | |s| |]; try discriminate.
      exists s. apply generate_prompt_of_dict. right. exact E.
    - exists "". apply generate_prompt_of_dict. left. split; [exact E|reflexivity]. }
  assert (Hraise : forall e, generate_prompt problem = Raise e ->
                             exn_name e = "AttributeError"
                             /\ forall kv, problem = JDict kv ->
                                  exists q, assoc "question" kv = Some q
                                            /\ isinstance_str q = false).
  { intros e. unfold generate_prompt.
    destruct problem as [| | | | | |kv]; cbn [py_get at_line];
      try (intros [= <-]; split; [reflexivity|intros kv; discriminate]).
    destruct (assoc "question" kv) as [q|] eqn:E.
    - destruct q as [| | | |s| |]; cbn [py_strip at_line];
        try (intros [= <-]; split; [reflexivity|];
             intros kv' [= <-]; eexists; split; [exact E|reflexivity]).
      discriminate.
    - cbn [py_strip at_line]. discriminate. }
  split; [split|split].
  - intros (p & Hp). destruct problem as [| | | | | |kv];
      try (unfold generate_prompt in Hp; cbn [py_get at_line] in Hp; discriminate).
    exists kv. split; [reflexivity|]. intros q Hq.
    destruct (isinstance_str q) eqn:Es; [reflexivity|]. exfalso.
    unfold generate_prompt in Hp. cbn [py_get at_line] in Hp. rewrite Hq in Hp.
    destruct q; cbn [py_strip at_line] in Hp; discriminate.
  - intros (kv & -> & Hq). destruct (Hdict kv Hq) as (s & middle & Hp).
    eexists. exact Hp.
  - intros p Hp.
    destruct problem as [| | | | | |kv];
      try (unfold generate_prompt in Hp; cbn [py_get at_line] in Hp; discriminate).
    assert (Hq : forall q, assoc "question" kv = Some q -> isinstance_str q = true).
    { intros q Hq. destruct (isinstance_str q) eqn:Es; [reflexivity|]. exfalso.
      unfold generate_prompt in Hp. cbn [py_get at_line] in Hp. rewrite Hq in Hp.
      destruct q; cbn [py_strip at_line] in Hp; discriminate. }
    destruct (Hdict kv Hq) as (s & middle & Hp').
    rewrite Hp' in Hp.
    apply (f_equal (fun o => match o with Ret x => x | Raise _ => p end)) in Hp.
    cbv beta iota in Hp. subst p. split.
    + apply prefix_of_append.
    + exists ((prompt_header ++ "QUESTION:" ++ nl) ++ strip s ++ nl ++ nl ++ middle).
      symmetry. apply string_app_assoc.
  - intros e He. apply (Hraise e He).
Qed.

(** X16. The prompt is made of three keys of the problem and of nothing
    else: two problems with the same ["question"], ["starter_code"] and
    ["fn_name"] get the same prompt, whatever else they hold.  The hidden
    test cases under ["input_output"] and the reference ["solutions"] never
    reach the model. *)
Theorem prompt_reads_three_keys :
  forall kv kv' : list (string * json),
    assoc "question" kv = assoc "question" kv' ->
    assoc "starter_code" kv = assoc "starter_code" kv' ->
    assoc "fn_name" kv = assoc "fn_name" kv' ->
    generate_prompt (JDict kv) = generate_prompt (JDict kv').
Proof.
  intros kv kv' Hq Hs Hf. unfold generate_prompt. cbn [py_get at_line].
  rewrite Hq, Hs, Hf. reflexivity.
Qed.

End Prompt.

(** * Runs of the further properties *)

Section FurtherRuns.

Import Toy.

Lemma script_mode_ignores_inputs_witness :
  run_test (py := reader) "Linux" print5_io (JStr print5_src) w0
  = run_test (py := reader) "Linux" print5_seven_io (JStr print5_src) w0.
Proof.
  exact (@script_mode_ignores_inputs store object reader "Linux"
           print5_io print5_seven_io (JStr print5_src)
           (script_doc [JStr ""] [JStr "5"]) (script_doc [JStr "7"] [JStr "5"])
           (JList [JStr ""]) (JList [JStr "7"]) (JList [JStr "5"]) JNull
           [JStr ""] [JStr "7"] w0
           eq_refl eq_refl eq_refl eq_refl eq_refl eq_refl eq_refl eq_refl
           eq_refl eq_refl eq_refl eq_refl).
Defined.



Lemma what_evaluate_single_raises_witness :
  evaluate_single (py := python) "Linux" (generation "E" echo_src add_io) w0
  = (Raise echo, loaded python echo_src)
  /\ exists x w1,
       run_test (py := python) "Linux" add_io (JStr echo_src) w0 = (Raise x, w1)
       /\ exn_is_Exception x = true
       /\ exn_str x = None
       /\ str_exn (Python := python) x w1 = (Raise echo, loaded python echo_src).
Proof.
  assert (Hev : evaluate_single (py := python) "Linux"
                  (generation "E" echo_src add_io) w0
                = (Raise echo, loaded python echo_src)) by reflexivity.
  split; [exact Hev|].
  destruct (proj1 (@what_evaluate_single_raises store object python "Linux")
              (fields "E" echo_src add_io) echo w0 (loaded python echo_src) Hev)
    as [[Hne _]|Hstr].
  - discriminate Hne.
  - exact Hstr.
Defined.

Lemma record_invariant_witness :
  let r := {| task_id := JStr "B"; passed := false; syntax_valid := true;
              error := [Some {| name := "WrongOutput"; value := "-1" |};
                        Some {| name := "WrongOutput"; value := "0" |}];
              error_name := Some "WrongOutput";
              num_tests := 2; num_passed := 0 |} in
  evaluate_single (py := python) "Linux" (generation "B" sub_src add2_io) w0
  = (Ret r, loaded python sub_src)
  /\ num_passed r <= num_tests r
  /\ (passed r = true <-> num_passed r = num_tests r /\ error_name r = None)
  /\ (passed r = true -> classified r = false).
Proof.
  intros r. split; [reflexivity|].
  destruct (@record_invariant store object python "Linux"
              (generation "B" sub_src add2_io) r w0 (loaded python sub_src) eq_refl)
    as (Hle & Hiff & Hclass & _).
  split; [exact Hle|]. split; [exact Hiff|exact Hclass].
Defined.

Lemma aggregate_counts_in_range_witness :
  let ok := {| task_id := JStr "A"; passed := true; syntax_valid := true;
               error := [None]; error_name := None;
               num_tests := 1; num_passed := 1 |} in
  let ko := {| task_id := JStr "B"; passed := false; syntax_valid := true;
               error := [Some {| name := "WrongOutput"; value := "-1" |}];
               error_name := Some "WrongOutput";
               num_tests := 1; num_passed := 0 |} in
  passed_problems [ok; ko] <= length [ok; ko]
  /\ passed_problems [ok; ko] + failed_problems [ok; ko] = length [ok; ko]
  /\ passed_test_cases [ok; ko] <= total_test_cases [ok; ko]
  /\ (forallb passed [ok; ko] = true ->
      passed_test_cases [ok; ko] = total_test_cases [ok; ko]).
Proof.
  intros ok ko.
  apply (@aggregate_counts_in_range store object python "Linux" [ok; ko]).
  constructor; [|constructor; [|constructor]].
  - exists (generation "A" add_src add_io), w0, (loaded python add_src). reflexivity.
  - exists (generation "B" sub_src add_io), w0, (loaded python sub_src). reflexivity.
Defined.

Lemma prompt_reads_three_keys_witness :
  generate_prompt (py := python)
    (JDict [("question", JStr "Add two numbers."); ("fn_name", JStr "add");
            ("input_output", JStr add_io); ("solutions", JStr add_src)])
  = generate_prompt (py := python)
      (JDict [("difficulty", JStr "introductory");
              ("question", JStr "Add two numbers."); ("fn_name", JStr "add")]).
Proof.
  exact (@prompt_reads_three_keys store object python
           [("question", JStr "Add two numbers."); ("fn_name", JStr "add");
            ("input_output", JStr add_io); ("solutions", JStr add_src)]
           [("difficulty", JStr "introductory");
            ("question", JStr "Add two numbers."); ("fn_name", JStr "add")]
           eq_refl eq_refl eq_refl).
Defined.

Lemma function_mode_verdict_witness :
  run_case (py := python) "Linux" (JStr "add") (JList [JInt 3]) (JStr sub_src)
    (ModuleObj 0) (0, JList [JInt 1; JInt 2]) (start python sub_src)
  = (Ret tt,
     {| the_world := loaded python sub_src;
        res := [PyBool false];
        err := [Some {| name := "WrongOutput"; value := "-1" |}] |}).
Proof.
  exact (@function_mode_verdict store object python "Linux"
           (JStr "add") (JList [JInt 3]) (JStr sub_src) (ModuleObj 0)
           0 (JList [JInt 1; JInt 2]) (start python sub_src)
           (Function Sub) (Int (-1)) (JInt 3) false "-1"
           (set_alarm TIMEOUT (loaded python sub_src))
           (set_alarm TIMEOUT (loaded python sub_src))
           (set_alarm TIMEOUT (loaded python sub_src))
           (set_alarm TIMEOUT (loaded python sub_src))
           eq_refl eq_refl eq_refl eq_refl eq_refl eq_refl).
Defined.

Lemma histogram_counts_the_failures_witness :
  let ok := {| task_id := JStr "A"; passed := true; syntax_valid := true;
               error := [None]; error_name := None;
               num_tests := 1; num_passed := 1 |} in
  let ko := {| task_id := JStr "B"; passed := false; syntax_valid := true;
               error := [Some {| name := "WrongOutput"; value := "-1" |}];
               error_name := Some "WrongOutput";
               num_tests := 1; num_passed := 0 |} in
  sum_values (error_breakdown [ok; ko; ko]) = failed_problems [ok; ko; ko].
Proof.
  intros ok ko. apply (@histogram_counts_the_failures [ok; ko; ko]).
  repeat constructor.
Defined.

Lemma verdict_record_classified_witness :
  let r := verdict_record (JStr "B") true
             [@PyBool object true; PyBool false]
             [None; Some {| name := "WrongOutput"; value := "0" |}] in
  classified r = negb (passed r).
Proof.
  intros r.
  apply (@verdict_record_classified object (JStr "B") true
           [PyBool true; PyBool false]
           [None; Some {| name := "WrongOutput"; value := "0" |}]).
  - constructor; [split; [reflexivity|discriminate]|].
    constructor; [split; [discriminate|intros _; discriminate]|constructor].
  - constructor; [exists true; reflexivity|].
    constructor; [exists false; reflexivity|constructor].
  - constructor; [intros d; discriminate|].
    constructor; [intros d [= <-]; discriminate|constructor].
Defined.

End FurtherRuns.
